(** * pyspark-audio-features: the dataset downloader and the batch converter

    A shallow embedding of [scripts/download.py] and [scripts/convert.py].
    Both scripts are sequences of filesystem and process effects, so the
    embedding threads an explicit world (the file store and a chronological
    log of the I/O calls made) through a small exception monad.

    Library calls whose behaviour belongs to something outside the
    repository (the SHA-256 function, the HTTP endpoint, the tar reader, the
    csv reader, the pseudo-random generator, the transcoding executable, the
    pure path algebra of pathlib) are interfaces here, each a type class
    with a test double further down.  Progress reporting ([print], [tqdm])
    is not modelled. *)

From Stdlib Require Import ZArith Lia Ascii String.
From stdpp Require Import base option list strings pretty gmap.

Local Open Scope Z_scope.

(** ** Python values used by the scripts *)

Definition bytes := list Byte.byte.

(** *** [int(len(tar_names) * 0.05)]

    The product is a binary64 multiplication.  The literal [0.05] is the
    double [0x3FA999999999999A], that is [C005 * 2^-56].  A double is
    represented below by its numerator over [2^56]. *)

Definition C005 : Z := 3602879701896397.

(** Round to nearest, ties to even, on 53 significant bits. *)
Definition rne53 (a : Z) : Z :=
  let sh := Z.log2 a + 1 - 53 in
  if sh <=? 0 then a
  else
    let q := Z.shiftr a sh in
    let r := a mod 2 ^ sh in
    let half := 2 ^ (sh - 1) in
    let q' := if (half <? r) || ((r =? half) && Z.odd q) then q + 1 else q in
    Z.shiftl q' sh.

(** [float(n) * 0.05], as a numerator over [2^56]. *)
Definition float_mul_005 (n : Z) : Z := rne53 (rne53 n * C005).

(** [int(x)] for a non-negative double with numerator [x] over [2^56]. *)
Definition py_int (x : Z) : Z := Z.shiftr x 56.

(** [k = max(1, int(len(tar_names) * 0.05))] *)
Definition sample_size (n : nat) : nat :=
  Z.to_nat (Z.max 1 (py_int (float_mul_005 (Z.of_nat n)))).

Local Close Scope Z_scope.

(** *** Ordered dictionaries

    A Python [dict] keeps its keys in insertion order, and [list(d.keys())]
    exposes that order to the shuffle, so the two manifests are association
    lists with unique keys rather than unordered finite maps. *)

Definition pydict := list (string * string).

Fixpoint dict_get (k : string) (d : pydict) : option string :=
  match d with
  | [] => None
  | (k', v) :: r => if decide (k = k') then Some v else dict_get k r
  end.

(** [d[k] = v]: an existing key keeps its position. *)
Fixpoint dict_set (k v : string) (d : pydict) : pydict :=
  match d with
  | [] => [(k, v)]
  | (k', v') :: r =>
      if decide (k = k') then (k, v) :: r else (k', v') :: dict_set k v r
  end.

Definition dict_keys (d : pydict) : list string := d.*1.

(** [{name: sha for sha, name in rows}]; a row that does not unpack into
    exactly two fields makes the comprehension fail. *)
Fixpoint dict_of_rows (rows : list (list string)) (acc : pydict)
  : option pydict :=
  match rows with
  | [] => Some acc
  | [sha; name] :: rest => dict_of_rows rest (dict_set name sha acc)
  | _ :: _ => None
  end.

(** *** pathlib

    The pure path algebra is an interface: the scripts only join, take the
    final component or the parent, and render a path. *)

Class PathLib (path : Type) := {
  mkpath : string -> path;            (* Path(s) *)
  truediv : path -> string -> path;   (* p / s *)
  path_name : path -> string;         (* p.name *)
  path_parent : path -> path;         (* p.parent *)
  path_str : path -> string;          (* str(p) *)
}.

Infix "</>" := truediv (at level 40, left associativity).

(** [name.rfind('.')] *)
Fixpoint rfind_dot (s : string) : option nat :=
  match s with
  | EmptyString => None
  | String c r =>
      match rfind_dot r with
      | Some i => Some (S i)
      | None => if decide (c = "."%char) then Some 0 else None
      end
  end.

Fixpoint str_take (n : nat) (s : string) : string :=
  match n, s with
  | S n', String c r => String c (str_take n' r)
  | _, _ => EmptyString
  end.

(** [PurePath.stem] (CPython up to 3.12): the final component without its
    last suffix; a leading or a trailing dot does not start a suffix. *)
Definition stem_of_name (name : string) : string :=
  match rfind_dot name with
  | Some i =>
      if bool_decide (0 < i) && bool_decide (i < String.length name - 1)
      then str_take i name else name
  | None => name
  end.

Definition stem `{PathLib path} (p : path) : string :=
  stem_of_name (path_name p).

(** ** The world: file store and I/O log *)

Inductive node :=
  | File (data : bytes)
  | Dir
  | Special.

Inductive exn :=
  | RuntimeError (msg : string)
  | KeyError (key : string)
  | ValueError
  | IndexError
  | FileNotFoundError (filename : string)
  | IsADirectoryError (filename : string)
  | FileExistsError (filename : string)
  | OSError (filename : string)
  | ShutilError (filename : string)
  | RequestException (url : string)
  | ReadError (filename : string)
  | CalledProcessError (returncode : Z) (cmd : list string).

Inductive result (A : Type) :=
  | Ok (a : A)
  | Raise (e : exn).
Arguments Ok {A} a.
Arguments Raise {A} e.

(** Members of an opened archive, as [TarInfo] exposes them. *)
Inductive tar_type := REGTYPE | DIRTYPE | OTHERTYPE.

Record TarInfo := {
  ti_name : string;
  ti_type : tar_type;
  ti_data : bytes;
}.

Definition isfile (m : TarInfo) : bool :=
  match ti_type m with REGTYPE => true | _ => false end.

Definition node_of_member (m : TarInfo) : node :=
  match ti_type m with
  | REGTYPE => File (ti_data m)
  | DIRTYPE => Dir
  | OTHERTYPE => Special
  end.

Section World.
Context {path : Type} `{Countable path} `{PathLib path}.

Inductive event :=
  | EvHttpGet (url : string)
  | EvSha256 (p : path) (digest : string)
  | EvExtract (tar : path) (member : string)
  | EvUnlink (p : path)
  | EvRun (cmd : list string).

Record world := mkWorld {
  files : gmap path node;
  log : list event;
}.

(** Computations: read and write the world, return or raise. *)
Definition M (A : Type) : Type := world -> result A * world.

Definition ret {A} (a : A) : M A := fun w => (Ok a, w).
Definition raise {A} (e : exn) : M A := fun w => (Raise e, w).
Definition bind {A B} (m : M A) (k : A -> M B) : M B :=
  fun w =>
    match m w with
    | (Ok a, w') => k a w'
    | (Raise e, w') => (Raise e, w')
    end.

Definition emit (e : event) : M unit :=
  fun w => (Ok tt, mkWorld (files w) (log w ++ [e])).
Definition set_files (f : gmap path node -> gmap path node) : M unit :=
  fun w => (Ok tt, mkWorld (f (files w)) (log w)).
Definition stat (p : path) : M (option node) :=
  fun w => (Ok (files w !! p), w).
End World.

Arguments event path : clear implicits.
Arguments world path {_ _}.
Arguments M path {_ _} A.

Declare Scope py_scope.
Delimit Scope py_scope with py.
Notation "x <- m ;; k" := (bind m (fun x => k))
  (at level 100, m at next level, right associativity) : py_scope.
Notation "m ;; k" := (bind m (fun _ => k))
  (at level 100, right associativity) : py_scope.
Local Open Scope py_scope.

Section Primitives.
Context {path : Type} `{Countable path} `{PathLib path}.

(** [p.exists()] *)
Definition path_exists (p : path) : M path bool :=
  n <- stat p ;; ret (bool_decide (is_Some n)).

(** Opening [p] for reading and reading it whole. *)
Definition read_bytes (p : path) : M path bytes :=
  n <- stat p ;;
  match n with
  | Some (File data) => ret data
  | Some Dir => raise (IsADirectoryError (path_str p))
  | Some Special => raise (OSError (path_str p))
  | None => raise (FileNotFoundError (path_str p))
  end.

(** [p.unlink(missing_ok=...)] *)
Definition unlink (p : path) (missing_ok : bool) : M path unit :=
  n <- stat p ;;
  match n with
  | Some Dir => raise (IsADirectoryError (path_str p))
  | Some _ => set_files (delete p) ;; emit (EvUnlink p)
  | None =>
      if missing_ok then ret tt else raise (FileNotFoundError (path_str p))
  end.

(** [p.mkdir(parents=True, exist_ok=True)]; the store records the entry
    itself, not the chain of its ancestors. *)
Definition mkdir_p (p : path) : M path unit :=
  n <- stat p ;;
  match n with
  | None => set_files <[p := Dir]>
  | Some Dir => ret tt
  | Some _ => raise (FileExistsError (path_str p))
  end.

(** [os.rename(src, dst)] *)
Definition rename (src dst : path) : M path unit :=
  n <- stat src ;;
  match n with
  | Some x => set_files (fun fs => <[dst := x]> (delete src fs))
  | None => raise (FileNotFoundError (path_str src))
  end.

(** [shutil.move(src, dst)]: into [dst] when it is a directory. *)
Definition shutil_move (src dst : path) : M path unit :=
  n <- stat dst ;;
  match n with
  | Some Dir =>
      let real_dst := dst </> path_name src in
      e <- path_exists real_dst ;;
      if e then raise (ShutilError (path_str real_dst))
      else rename src real_dst
  | _ => rename src dst
  end.

(** Computations that leave the log alone. *)
Definition keeps_log {A} (m : M path A) : Prop :=
  forall w r w', m w = (r, w') -> log w' = log w.
End Primitives.

(** ** scripts/download.py *)

(** The runtime outside the repository, as the downloader sees it. *)
Class Runtime (path : Type) `{Countable path} := {
  (** [Path(__file__).parent] *)
  BASE_PATH : path;
  (** [hashlib.sha256(data).hexdigest()] *)
  sha256_hex : bytes -> string;
  (** [csv.reader(f, delimiter=" ")] on the content of a file *)
  csv_reader : bytes -> list (list string);
  (** The CDN: the body served for a URL, or a transport or status failure. *)
  remote : string -> option bytes;
  (** [tarfile.open(...).getmembers()]; [None] when the file is no archive. *)
  tar_members : bytes -> option (list TarInfo);
  (** The name [tempfile.NamedTemporaryFile(dir=...)] picks. *)
  mkstemp : gmap path node -> path -> path;
  (** [random.Random]: seeding and the [_randbelow] primitive. *)
  rng : Type;
  seed_rng : Z -> rng;
  randbelow : rng -> nat -> nat * rng;
}.

Module Download.
Section Download.
Context {path : Type} `{Countable path} `{!PathLib path} `{!Runtime path}.

(** *** Constants *)

Definition SEED : Z := 42.
Definition DATASET : string := "raw_30s".
Definition DATA_TYPE : string := "audio-low".
Definition BASE_URL : string := "https://cdn.freesound.org/mtg-jamendo".

Definition ASSETS_DIR : path := BASE_PATH </> "../assets".
Definition OUTPUT_DIR : path := BASE_PATH </> "../data/audio".
Definition SHA256_TARS_FILE : path :=
  ASSETS_DIR </> "raw_30s_audio-low_sha256_tars.txt".
Definition SHA256_TRACKS_FILE : path :=
  ASSETS_DIR </> "raw_30s_audio-low_sha256_tracks.txt".

(** *** Helpers *)


(** The chunked read feeds the whole content to one hash object. *)
Definition compute_sha256 (p : path) : M path string :=
  data <- read_bytes p ;;
  let digest := sha256_hex data in
  emit (EvSha256 p digest) ;;
  ret digest.

Definition download_file (url : string) (dest : path) : M path unit :=
  mkdir_p (path_parent dest) ;;
  emit (EvHttpGet url) ;;
  match remote url with
  | None => raise (RequestException url)
  | Some body =>
      fs <- (fun w => (Ok (files w), w)) ;;
      let tmp := mkstemp fs (path_parent dest) in
      set_files <[tmp := File body]> ;;
      shutil_move tmp dest
  end.

Definition load_checksums (file : path) : M path pydict :=
  text <- read_bytes file ;;
  match dict_of_rows (csv_reader text) [] with
  | Some d => ret d
  | None => raise ValueError
  end.

Definition load_tar_checksums : M path pydict :=
  load_checksums SHA256_TARS_FILE.
Definition load_track_checksums : M path pydict :=
  load_checksums SHA256_TRACKS_FILE.

(** [tarfile.open(tar_path)] then [tar.getmembers()] *)
Definition tar_open (tar_path : path) : M path (list TarInfo) :=
  data <- read_bytes tar_path ;;
  match tar_members data with
  | Some members => ret members
  | None => raise (ReadError (path_str tar_path))
  end.

(** [tar.extractall(OUTPUT_DIR)]: every member, in archive order, is
    written below the output root. *)
Definition extract_member (tar_path : path) (m : TarInfo) : M path unit :=
  set_files <[OUTPUT_DIR </> ti_name m := node_of_member m]> ;;
  emit (EvExtract tar_path (ti_name m)).

Fixpoint extractall (tar_path : path) (members : list TarInfo)
  : M path unit :=
  match members with
  | [] => ret tt
  | m :: rest => extract_member tar_path m ;; extractall tar_path rest
  end.

(** The [for m in members] loop of [unpack_and_verify]. *)
Fixpoint verify_members (members : list TarInfo) (track_checksums : pydict)
  : M path unit :=
  match members with
  | [] => ret tt
  | m :: rest =>
      if negb (isfile m) then verify_members rest track_checksums
      else
        let rel := ti_name m in
        match dict_get rel track_checksums with
        | None => verify_members rest track_checksums
        | Some expected =>
            let p := OUTPUT_DIR </> rel in
            digest <- compute_sha256 p ;;
            if bool_decide (digest <> expected)
            then raise (RuntimeError ("Checksum mismatch: " +:+ path_str p))
            else verify_members rest track_checksums
        end
  end.

Definition unpack_and_verify (tar_path : path) (track_checksums : pydict)
  : M path unit :=
  members <- tar_open tar_path ;;
  extractall tar_path members ;;
  verify_members members track_checksums.

(** *** Core logic *)

Definition tar_url (tar_name : string) : string :=
  BASE_URL +:+ "/" +:+ DATASET +:+ "/" +:+ DATA_TYPE +:+ "/" +:+ tar_name.

Definition dict_getitem (k : string) (d : pydict) : M path string :=
  match dict_get k d with
  | Some v => ret v
  | None => raise (KeyError k)
  end.

(** The body of the [for tar_name in tar_names] loop. *)
Definition fetch_and_verify (tar_checksums track_checksums : pydict)
    (tar_name : string) : M path unit :=
  let tar_path := OUTPUT_DIR </> tar_name in
  e <- path_exists tar_path ;;
  if e then ret tt
  else
    download_file (tar_url tar_name) tar_path ;;
    digest <- compute_sha256 tar_path ;;
    expected <- dict_getitem tar_name tar_checksums ;;
    if bool_decide (digest <> expected)
    then
      unlink tar_path true ;;
      raise (RuntimeError ("Bad checksum for " +:+ tar_name))
    else
      unpack_and_verify tar_path track_checksums ;;
      unlink tar_path false.

Fixpoint for_each_tar (tar_checksums track_checksums : pydict)
    (tar_names : list string) : M path unit :=
  match tar_names with
  | [] => ret tt
  | tar_name :: rest =>
      fetch_and_verify tar_checksums track_checksums tar_name ;;
      for_each_tar tar_checksums track_checksums rest
  end.

Definition _download_tars (tar_names : list string) : M path unit :=
  tar_checksums <- load_tar_checksums ;;
  track_checksums <- load_track_checksums ;;
  for_each_tar tar_checksums track_checksums tar_names.

(** *** Public API *)

Definition select_full : M path (list string) :=
  tar_checksums <- load_tar_checksums ;;
  ret (dict_keys tar_checksums).


(** [x[i], x[j] = x[j], x[i]] *)
Definition swap (i j : nat) (x : list string) : option (list string) :=
  match x !! j, x !! i with
  | Some xj, Some xi => Some (<[j := xi]> (<[i := xj]> x))
  | _, _ => None
  end.

(** [Random.shuffle]: [for i in reversed(range(1, len(x)))], with
    [j = randbelow(i + 1)]; the first argument is the current [i]. *)
Fixpoint shuffle_loop (i : nat) (g : rng) (x : list string)
  : option (list string) :=
  match i with
  | 0 => Some x
  | S i' =>
      let (j, g') := randbelow g (S i) in
      match swap i j x with
      | Some x' => shuffle_loop i' g' x'
      | None => None
      end
  end.

Definition shuffle (seed : Z) (x : list string) : M path (list string) :=
  match shuffle_loop (length x - 1) (seed_rng seed) x with
  | Some x' => ret x'
  | None => raise IndexError
  end.

(** Lines 142 to 147 of [download_sample]: the selection itself. *)
Definition select_sample : M path (list string) :=
  tar_checksums <- load_tar_checksums ;;
  let tar_names := dict_keys tar_checksums in
  tar_names <- shuffle SEED tar_names ;;
  let k := sample_size (length tar_names) in
  ret (take k tar_names).

Definition download_sample : M path unit :=
  sample <- select_sample ;;
  _download_tars sample.


(** *** Vocabulary of the statements

    The file store after [extractall], the members the verification loop
    hashes, and what it appends to the log for them. *)

(** The file store once [dest.parent.mkdir(parents=True, exist_ok=True)]
    has run over a parent that is absent or a directory. *)
Definition with_parent (dest : path) (fs : gmap path node)
  : gmap path node :=
  match fs !! path_parent dest with
  | None => <[path_parent dest := Dir]> fs
  | Some _ => fs
  end.

(** The file store once a body has been downloaded through a temporary
    file and moved into place. *)
Definition downloaded (dest : path) (body : bytes)
    (fs : gmap path node) : gmap path node :=
  let fs1 := with_parent dest fs in
  let tmp := mkstemp fs1 (path_parent dest) in
  <[dest := File body]> (delete tmp (<[tmp := File body]> fs1)).

Definition extract_fs (members : list TarInfo) (fs : gmap path node)
  : gmap path node :=
  foldl (fun fs m => <[OUTPUT_DIR </> ti_name m := node_of_member m]> fs)
    fs members.

Definition extract_log (tar_path : path) (members : list TarInfo)
  : list (event path) :=
  (fun m => EvExtract tar_path (ti_name m)) <$> members.

Definition member_checked (track_checksums : pydict) (m : TarInfo) : bool :=
  isfile m && bool_decide (is_Some (dict_get (ti_name m) track_checksums)).

Definition member_passes (track_checksums : pydict) (fs : gmap path node)
    (m : TarInfo) : Prop :=
  member_checked track_checksums m = true ->
  exists data,
    fs !! (OUTPUT_DIR </> ti_name m) = Some (File data) /\
    dict_get (ti_name m) track_checksums = Some (sha256_hex data).

Definition sha_event (fs : gmap path node) (m : TarInfo)
  : option (event path) :=
  let p := OUTPUT_DIR </> ti_name m in
  match fs !! p with
  | Some (File data) => Some (EvSha256 p (sha256_hex data))
  | _ => None
  end.

Definition checked_log (track_checksums : pydict) (fs : gmap path node)
    (members : list TarInfo) : list (event path) :=
  omap (sha_event fs)
    (filter (fun m => member_checked track_checksums m = true) members).

Definition is_sha_event (e : event path) : Prop :=
  exists p digest, e = EvSha256 p digest.

Definition no_extract (tr : list (event path)) : Prop :=
  forall tar_path member, EvExtract tar_path member ∉ tr.

(** Every extraction recorded in [tr] comes after a hash of its archive
    that equals the digest the archive manifest records for it. *)
Definition extraction_guarded (tar_checksums : pydict)
    (tar_names : list string) (tr : list (event path)) : Prop :=
  forall pre tar_path member post,
    tr = pre ++ EvExtract tar_path member :: post ->
    exists tar_name digest,
      tar_name ∈ tar_names /\
      tar_path = OUTPUT_DIR </> tar_name /\
      dict_get tar_name tar_checksums = Some digest /\
      EvSha256 tar_path digest ∈ pre.
End Download.
End Download.

(** ** scripts/convert.py *)

(** What starting an executable can do: fail to start, or run to an exit
    code and leave a file store behind. *)
Inductive proc_result (path : Type) `{Countable path} :=
  | SpawnFailed
  | Exited (returncode : Z) (fs : gmap path node).
Arguments SpawnFailed {path _ _}.
Arguments Exited {path _ _} returncode fs.

(** The executables on the machine: [subprocess.run] hands them the
    argument vector and they act on the file store. *)
Class Processes (path : Type) `{Countable path} := {
  run_process : list string -> gmap path node -> proc_result path;
}.

Module Convert.
Section Convert.
Context {path : Type} `{Countable path} `{!PathLib path} `{!Processes path}.

Definition SRC_DIR : path := mkpath "data/audio/mp3".
Definition DST_DIR : path := mkpath "data/audio/wav".

Definition SAMPLE_RATE : Z := 16000.
Definition CHANNELS : Z := 1.
Definition SAMPLE_FMT : string := "pcm_s16le".
Definition MAX_WORKERS : Z := 6.


(** [subprocess.run(cmd, check=True)] *)
Definition subprocess_run_check (cmd : list string) : M path unit :=
  fun w =>
    match run_process cmd (files w) with
    | SpawnFailed => (Raise (FileNotFoundError (default "" (head cmd))), w)
    | Exited returncode fs =>
        let w' := mkWorld fs (log w ++ [EvRun cmd]) in
        if bool_decide (returncode = 0%Z) then (Ok tt, w')
        else (Raise (CalledProcessError returncode cmd), w')
    end.

Definition dst_of (src : path) : path := DST_DIR </> (stem src +:+ ".wav").

Definition ffmpeg_cmd (src : path) : list string :=
  [ "ffmpeg";
    "-y";
    "-loglevel"; "error";
    "-i"; path_str src;
    "-ac"; pretty CHANNELS;
    "-ar"; pretty SAMPLE_RATE;
    "-sample_fmt"; "s16";
    "-c:a"; SAMPLE_FMT;
    path_str (dst_of src) ].

Definition convert_one (src : path) : M path string :=
  let cmd := ffmpeg_cmd src in
  subprocess_run_check cmd ;;
  unlink src false ;;
  ret (path_name src).
End Convert.
End Convert.

(** ** Vocabulary of the further statements *)

(** The digest a manifest row records for [name], when the row is a
    well-formed one about that name. *)
Definition row_digest (name : string) (row : list string) : option string :=
  match row with
  | [sha; n] => if decide (n = name) then Some sha else None
  | _ => None
  end.

(** The digest on the last row about [name]. *)
Definition rows_lookup (name : string) (rows : list (list string))
  : option string :=
  last (omap (row_digest name) rows).

(** The exchange of the positions [i] and [j]. *)
Definition transpose (i j k : nat) : nat :=
  if decide (k = j) then i else if decide (k = i) then j else k.

(** The errors that come out of [unpack_and_verify] once the archive has
    been read: a member whose digest differs, or a file that is no archive. *)
Definition is_verify_error (e : exn) : Prop :=
  (exists s, e = RuntimeError ("Checksum mismatch: " +:+ s)) \/
  (exists f, e = ReadError f).

(** ** Test doubles

    A concrete runtime on which the definitions above evaluate: POSIX path
    strings (for relative, already normalised operands), an endpoint that
    serves two archives, a digest that spells out the content, and a
    transcoder that copies its input to its output. *)

Module Fixture.
Fixpoint has_slash (s : string) : bool :=
  match s with
  | EmptyString => false
  | String c r => bool_decide (c = "/"%char) || has_slash r
  end.

Fixpoint basename (s : string) : string :=
  match s with
  | EmptyString => EmptyString
  | String c r =>
      if has_slash r then basename r
      else if bool_decide (c = "/"%char) then r else s
  end.

Definition dirname (s : string) : string :=
  str_take (String.length s - String.length (basename s) - 1) s.

#[global] Instance posix : PathLib string := {|
  mkpath s := s;
  truediv p s := p +:+ "/" +:+ s;
  path_name := basename;
  path_parent := dirname;
  path_str p := p;
|}.

(** Splitting on a separator character. *)
Fixpoint fields (sep : ascii) (cur s : string) : list string :=
  match s with
  | EmptyString => [cur]
  | String c r =>
      if bool_decide (c = sep) then cur :: fields sep EmptyString r
      else fields sep (cur +:+ String c EmptyString) r
  end.

(** Rows of space-separated fields, one per line; a blank line is an
    empty row, and the newline that ends the text starts no row. *)
Definition csv_row (line : string) : list string :=
  if bool_decide (line = EmptyString) then []
  else fields " "%char EmptyString line.

Definition csv_lines (text : string) : list string :=
  let ls := fields "010"%char EmptyString text in
  match last ls with
  | Some EmptyString => removelast ls
  | _ => ls
  end.

Definition csv (data : bytes) : list (list string) :=
  csv_row <$> csv_lines (string_of_list_byte data).

Definition b (s : string) : bytes := list_byte_of_string s.

Definition member (name content : string) : TarInfo :=
  {| ti_name := name; ti_type := REGTYPE; ti_data := b content |}.

Definition good_tar : list TarInfo :=
  [ {| ti_name := "00"; ti_type := DIRTYPE; ti_data := [] |};
    member "00/1.mp3" "one";
    member "00/2.mp3" "two";
    member "00/README" "not listed" ].

(** An archive whose second track does not match the track manifest. *)
Definition bad_tar : list TarInfo :=
  [ member "01/3.mp3" "three";
    member "01/4.mp3" "tampered";
    member "01/5.mp3" "five" ].

Definition untar (data : bytes) : option (list TarInfo) :=
  let s := string_of_list_byte data in
  if bool_decide (s = "GOODTAR") then Some good_tar
  else if bool_decide (s = "BADTAR") then Some bad_tar
  else None.

Definition cdn (url : string) : option bytes :=
  let base := "https://cdn.freesound.org/mtg-jamendo/raw_30s/audio-low/" in
  if bool_decide (url = base +:+ "a.tar") then Some (b "GOODTAR")
  else if bool_decide (url = base +:+ "b.tar") then Some (b "BADTAR")
  else if bool_decide (url = base +:+ "c.tar") then Some (b "CORRUPT")
  else None.

#[global] Instance runtime : Runtime string := {|
  BASE_PATH := "/repo/scripts";
  sha256_hex := string_of_list_byte;
  csv_reader := csv;
  remote := cdn;
  tar_members := untar;
  mkstemp := fun _ dir => dir +:+ "/tmpq1w2e3";
  rng := nat;
  seed_rng := Z.to_nat;
  randbelow := fun g n => ((g * 7 + 3) `mod` n, g * 7 + 3);
|}.

Definition tars_txt : bytes :=
  b "GOODTAR a.tar
BADTAR b.tar
c0ffee c.tar
".

Definition tracks_txt : bytes :=
  b "one 00/1.mp3
two 00/2.mp3
three 01/3.mp3
four 01/4.mp3
five 01/5.mp3
".

Definition disk0 : gmap string node :=
  <[Download.SHA256_TARS_FILE := File tars_txt]>
    (<[Download.SHA256_TRACKS_FILE := File tracks_txt]>
       (<[Download.OUTPUT_DIR := Dir]> ∅)).

Definition world0 : world string := mkWorld disk0 [].

(** The two manifests as [load_checksums] reads them from [disk0]. *)
Definition tars : pydict :=
  [("a.tar", "GOODTAR"); ("b.tar", "BADTAR"); ("c.tar", "c0ffee")].

Definition tracks : pydict :=
  [("00/1.mp3", "one"); ("00/2.mp3", "two"); ("01/3.mp3", "three");
   ("01/4.mp3", "four"); ("01/5.mp3", "five")].

Definition tar_a : string := Download.OUTPUT_DIR </> "a.tar".
Definition tar_b : string := Download.OUTPUT_DIR </> "b.tar".

(** Worlds in which an archive file is already on disk. *)
Definition world_a : world string :=
  mkWorld (<[tar_a := File (b "GOODTAR")]> disk0) [].
Definition world_b : world string :=
  mkWorld (<[tar_b := File (b "BADTAR")]> disk0) [].
Definition world_stale : world string :=
  mkWorld (<[tar_a := File (b "trunc")]> disk0) [].

(** The same manifest, other files, another history. *)
Definition world_other : world string :=
  mkWorld (<["/tmp/junk" := File (b "junk")]> (<[tar_b := Dir]> disk0))
    [EvUnlink "/tmp/old"].

(** A transcoder double: on [-i src ... dst] it copies a non-empty [src]
    to [dst], replacing what was there, and exits 0; on an empty or
    missing [src] it exits 1 and touches nothing. *)
Definition fake_ffmpeg (cmd : list string) (fs : gmap string node)
  : proc_result string :=
  match cmd !! 5, last cmd with
  | Some src, Some dst =>
      match fs !! src with
      | Some (File (c :: data)) => Exited 0 (<[dst := File (c :: data)]> fs)
      | _ => Exited 1 fs
      end
  | _, _ => SpawnFailed
  end.

#[global] Instance processes : Processes string := {|
  run_process := fake_ffmpeg;
|}.

Definition track_mp3 : string := "data/audio/mp3/track.mp3".
Definition a_x_mp3 : string := "data/audio/mp3/a/x.mp3".
Definition b_x_mp3 : string := "data/audio/mp3/b/x.mp3".

Definition world_track : world string :=
  mkWorld (<[track_mp3 := File (b "ID3 sound")]> ∅) [].
Definition world_broken : world string :=
  mkWorld (<[track_mp3 := File []]> ∅) [].
Definition world_ab : world string :=
  mkWorld (<[a_x_mp3 := File (b "first")]>
             (<[b_x_mp3 := File (b "second")]> ∅)) [].

(** Further worlds: manifests that are empty, absent, repeated or
    broken, and archives that are all there already. *)
Definition disk_out : gmap string node := <[Download.OUTPUT_DIR := Dir]> ∅.

Definition world_bare : world string := mkWorld disk_out [].

Definition world_empty : world string :=
  mkWorld (<[Download.SHA256_TARS_FILE := File []]>
             (<[Download.SHA256_TRACKS_FILE := File tracks_txt]> disk_out)) [].

Definition world_notracks : world string :=
  mkWorld (<[Download.SHA256_TARS_FILE := File tars_txt]> disk_out) [].

Definition world_all_there : world string :=
  mkWorld (<[tar_a := File (b "trunc")]>
             (<[tar_b := Dir]>
                (<[Download.OUTPUT_DIR </> "c.tar" := File []]> disk0))) [].

Definition dup_txt : bytes :=
  b "d1 x.tar
d2 y.tar
d3 x.tar
".

Definition broken_txt : bytes :=
  b "d1 x.tar
lonely
".

Definition world_lists : world string :=
  mkWorld (<["dup.txt" := File dup_txt]>
             (<["broken.txt" := File broken_txt]> ∅)) [].
End Fixture.

(** * Properties *)

(** ** The sample size *)

Local Open Scope Z_scope.

Lemma rne53_small a : 0 <= a < 2 ^ 53 -> rne53 a = a.
Proof.
  intros [H0 H1]. unfold rne53.
  destruct (Z.eq_dec a 0) as [->|Hne]; [reflexivity|].
  assert (Z.log2 a < 53) by (apply Z.log2_lt_pow2; lia).
  replace (Z.log2 a + 1 - 53 <=? 0) with true; [reflexivity|].
  symmetry. apply Z.leb_le. lia.
Qed.

Lemma rne53_bounds a sh :
  0 < a -> sh = Z.log2 a + 1 - 53 -> 0 < sh ->
  exists q', rne53 a = q' * 2 ^ sh /\ a / 2 ^ sh <= q' <= a / 2 ^ sh + 1.
Proof.
  intros Ha -> Hsh. unfold rne53.
  replace (Z.log2 a + 1 - 53 <=? 0) with false
    by (symmetry; apply Z.leb_gt; lia).
  cbv zeta. rewrite Z.shiftr_div_pow2 by lia.
  set (sh := Z.log2 a + 1 - 53) in *.
  match goal with |- context [Z.shiftl ?x sh] => exists x end.
  rewrite Z.shiftl_mul_pow2 by lia. split; [reflexivity|].
  destruct (_ || _)%bool; lia.
Qed.

Lemma float_mul_005_floor n :
  0 <= n < 2 ^ 51 -> py_int (float_mul_005 n) = n / 20.
Proof.
  intros [H0 H1]. unfold float_mul_005, py_int.
  rewrite (rne53_small n) by lia.
  rewrite Z.shiftr_div_pow2 by lia.
  destruct (Z.eq_dec n 0) as [->|Hn]; [reflexivity|].
  set (a := n * C005).
  assert (Ha : 0 < a) by (unfold a, C005; lia).
  destruct (Z_lt_le_dec a (2 ^ 53)) as [Hlt|Hge].
  - rewrite rne53_small by lia.
    assert (n < 20) by (unfold a, C005 in Hlt; lia).
    rewrite (Z.div_small n 20) by lia.
    apply Z.div_small. lia.
  - assert (Hlog : 53 <= Z.log2 a) by (apply Z.log2_le_pow2; lia).
    assert (Hup : Z.log2 a < 103).
    { apply Z.log2_lt_pow2; [lia|]. unfold a, C005. lia. }
    destruct (rne53_bounds a (Z.log2 a + 1 - 53) Ha eq_refl ltac:(lia))
      as (q' & -> & Hq).
    set (sh := Z.log2 a + 1 - 53) in *.
    assert (Hsh : 0 < sh <= 50) by (unfold sh; lia).
    set (P := 2 ^ sh) in *.
    assert (HP : 0 < P) by (apply Z.pow_pos_nonneg; lia).
    (* the quantum P is at most a / 2^52 *)
    assert (HPa : P * 2 ^ 52 <= a).
    { unfold P. rewrite <- Z.pow_add_r by lia.
      replace (sh + 52) with (Z.log2 a) by (unfold sh; lia).
      apply Z.log2_spec. lia. }
    (* 2^56 is a multiple of P *)
    assert (HPd : 2 ^ 56 = P * 2 ^ (56 - sh)).
    { unfold P. rewrite <- Z.pow_add_r by lia. f_equal. lia. }
    set (T := 2 ^ (56 - sh)) in *.
    assert (HT : 0 < T) by (apply Z.pow_pos_nonneg; lia).
    pose proof (Z.div_mod a P ltac:(lia)) as Hdm.
    pose proof (Z.mod_pos_bound a P HP) as Hmod.
    pose proof (Z.div_mod n 20 ltac:(lia)) as Hn20.
    pose proof (Z.mod_pos_bound n 20 ltac:(lia)) as Hm20.
    set (m := n / 20) in *. set (q := a / P) in *.
    assert (Hqlo : m * T <= q).
    { unfold q. apply Z.div_le_lower_bound; [lia|].
      assert (m * 2 ^ 56 <= a) by (unfold a, C005; lia).
      rewrite HPd in H. lia. }
    symmetry. apply Z.div_unique with (r := q' * P - m * 2 ^ 56).
    2: lia.
    left. split.
    + rewrite HPd. nia.
    + assert (q' * P <= a + P) by nia.
      assert (P * 2 ^ 52 < n * 2 ^ 52) by (unfold a, C005 in HPa; lia).
      assert (P < n) by lia.
      assert (a <= (20 * m + 19) * C005) by (unfold a, C005; lia).
      unfold C005 in *. lia.
Qed.

Lemma sample_size_spec n :
  (1 <= Z.of_nat n < 2 ^ 51) ->
  Z.of_nat (sample_size n) = Z.max 1 (Z.of_nat n / 20).
Proof.
  intros H. unfold sample_size.
  rewrite float_mul_005_floor by lia. lia.
Qed.

Lemma sample_size_le n : (1 <= Z.of_nat n < 2 ^ 51) -> (sample_size n <= n)%nat.
Proof.
  intros H. pose proof (sample_size_spec n H) as Hs.
  assert (Z.of_nat n / 20 <= Z.of_nat n).
  { apply Z.div_le_upper_bound; lia. }
  lia.
Qed.

Local Close Scope Z_scope.

(** Past that range the rounded product can reach the next integer: the
    bound in [float_mul_005_floor] is not an artefact of the proof. *)
Example float_mul_005_rounds_up :
  py_int (float_mul_005 6999749030306319) = (6999749030306319 / 20 + 1)%Z.
Proof. reflexivity. Qed.

(** The sizes for a few manifest lengths. *)
Example sample_size_table :
  sample_size <$> [0; 1; 19; 20; 39; 40; 100; 1999; 2000]
  = [1; 1; 1; 1; 1; 2; 5; 99; 100].
Proof. reflexivity. Qed.

(** A later row for a known name replaces the digest and keeps the place. *)
Example dict_of_rows_order :
  dict_of_rows [["d1"; "x.tar"]; ["d2"; "y.tar"]; ["d3"; "x.tar"]] []
  = Some [("x.tar", "d3"); ("y.tar", "d2")].
Proof. reflexivity. Qed.

Example dict_of_rows_malformed :
  dict_of_rows [["d1"; "x.tar"]; ["d2"]] [] = None.
Proof. reflexivity. Qed.

Example stem_of_name_table :
  stem_of_name <$> ["track.mp3"; "a.tar.gz"; ".mp3"; "noext"; "dot."]
  = ["track"; "a.tar"; ".mp3"; "noext"; "dot."].
Proof. reflexivity. Qed.

(** ** Running computations *)

Section MonadFacts.
Context {path : Type} `{Countable path} `{!PathLib path}.

Lemma bind_ok {A B} (m : M path A) (k : A -> M path B) w a w' :
  m w = (Ok a, w') -> bind m k w = k a w'.
Proof. intros Hm. unfold bind. by rewrite Hm. Qed.

Lemma bind_raise {A B} (m : M path A) (k : A -> M path B) w e w' :
  m w = (Raise e, w') -> bind m k w = (Raise e, w').
Proof. intros Hm. unfold bind. by rewrite Hm. Qed.

Lemma bind_inv {A B} (m : M path A) (k : A -> M path B) w r w' :
  bind m k w = (r, w') ->
  (exists a w1, m w = (Ok a, w1) /\ k a w1 = (r, w')) \/
  (exists e, m w = (Raise e, w') /\ r = Raise e).
Proof.
  unfold bind. destruct (m w) as [[a|e] w1]; intros Hk.
  - left. eauto.
  - right. exists e. by simplify_eq.
Qed.

Lemma read_bytes_file (p : path) w data :
  files w !! p = Some (File data) -> read_bytes p w = (Ok data, w).
Proof. intros Hp. unfold read_bytes, bind, stat. by rewrite Hp. Qed.

Lemma read_bytes_inv (p : path) w r w' :
  read_bytes p w = (r, w') ->
  w' = w /\ forall data, r = Ok data -> files w !! p = Some (File data).
Proof.
  unfold read_bytes, bind, stat, ret, raise.
  destruct (files w !! p) as [[data| |]|]; intros ?; simplify_eq;
    split; try done; intros ??; by simplify_eq.
Qed.

Lemma path_exists_run (p : path) w :
  path_exists p w = (Ok (bool_decide (is_Some (files w !! p))), w).
Proof. reflexivity. Qed.

(** A successful [unlink()] leaves nothing at the path. *)
Lemma unlink_inv (p : path) missing_ok w r w' :
  unlink p missing_ok w = (r, w') ->
  (r = Ok tt -> files w' !! p = None) /\
  (log w' = log w \/ log w' = log w ++ [EvUnlink p]) /\
  (missing_ok = false -> r = Ok tt -> log w' = log w ++ [EvUnlink p]).
Proof.
  unfold unlink, bind, stat, set_files, emit, ret, raise.
  destruct (files w !! p) as [[data| |]|] eqn:Hp; simpl;
    try destruct missing_ok; intros ?; simplify_eq; simpl;
    rewrite ?lookup_delete_eq; repeat split; auto; done.
Qed.

Lemma keeps_log_ret {A} (a : A) : keeps_log (ret a : M path A).
Proof. intros w r w' ?. unfold ret in *. by simplify_eq. Qed.

Lemma keeps_log_raise {A} e : keeps_log (@raise path _ _ A e).
Proof. intros w r w' ?. unfold raise in *. by simplify_eq. Qed.

Lemma keeps_log_stat (p : path) : keeps_log (stat p).
Proof. intros w r w' ?. unfold stat in *. by simplify_eq. Qed.

Lemma keeps_log_set_files f : keeps_log (@set_files path _ _ f).
Proof. intros w r w' ?. unfold set_files in *. by simplify_eq. Qed.

Lemma keeps_log_bind {A B} (m : M path A) (k : A -> M path B) :
  keeps_log m -> (forall a, keeps_log (k a)) -> keeps_log (bind m k).
Proof.
  intros Hm Hk w r w' Hrun.
  apply bind_inv in Hrun as [(a & w1 & Hma & Hka)|(e & Hma & _)].
  - rewrite (Hk _ _ _ _ Hka). eauto.
  - eauto.
Qed.

Lemma keeps_log_mkdir_p (p : path) : keeps_log (mkdir_p p).
Proof.
  apply keeps_log_bind; [apply keeps_log_stat|].
  intros [[| |]|]; auto using keeps_log_ret, keeps_log_raise,
    keeps_log_set_files.
Qed.

Lemma keeps_log_rename (src dst : path) : keeps_log (rename src dst).
Proof.
  apply keeps_log_bind; [apply keeps_log_stat|].
  intros [x|]; auto using keeps_log_raise, keeps_log_set_files.
Qed.

Lemma keeps_log_shutil_move (src dst : path) :
  keeps_log (shutil_move src dst).
Proof.
  apply keeps_log_bind; [apply keeps_log_stat|].
  intros [[| |]|]; auto using keeps_log_rename.
  apply keeps_log_bind.
  - apply keeps_log_bind; [apply keeps_log_stat|].
    intros ?. apply keeps_log_ret.
  - intros []; auto using keeps_log_rename, keeps_log_raise.
Qed.
End MonadFacts.

(** ** The verified archive fetcher *)

Section DownloadFacts.
Context {path : Type} `{Countable path} `{!PathLib path} `{!Runtime path}.
Import Download.

Implicit Types (w : world path) (p tar_path : path) (fs : gmap path node).
Implicit Types (members : list TarInfo) (tc trk : pydict).
Implicit Types (tr : list (event path)).

Lemma compute_sha256_file p w data :
  files w !! p = Some (File data) ->
  compute_sha256 p w =
    (Ok (sha256_hex data),
     mkWorld (files w) (log w ++ [EvSha256 p (sha256_hex data)])).
Proof.
  intros Hp. unfold compute_sha256.
  rewrite (bind_ok _ _ _ _ _ (read_bytes_file _ _ _ Hp)). reflexivity.
Qed.

Lemma compute_sha256_inv p w r w' :
  compute_sha256 p w = (r, w') ->
  files w' = files w /\
  ((exists e, r = Raise e /\ log w' = log w) \/
   (exists data, files w !! p = Some (File data) /\
      r = Ok (sha256_hex data) /\
      log w' = log w ++ [EvSha256 p (sha256_hex data)])).
Proof.
  unfold compute_sha256. intros Hr.
  apply bind_inv in Hr as [(data & w1 & Hread & Hr)|(e & Hread & ->)].
  - apply read_bytes_inv in Hread as [-> Hfile].
    unfold bind, emit, ret in Hr. simplify_eq. simpl.
    split; [done|]. right. exists data. eauto.
  - apply read_bytes_inv in Hread as [-> _]. split; [done|]. left. eauto.
Qed.

Lemma download_file_ok url dest body w :
  path_parent dest <> dest ->
  (forall n, files w !! path_parent dest = Some n -> n = Dir) ->
  files w !! dest = None ->
  remote url = Some body ->
  download_file url dest w =
    (Ok tt, mkWorld (downloaded dest body (files w))
              (log w ++ [EvHttpGet url])).
Proof.
  intros Hpar Hdir Hdest Hurl.
  assert (Hmk : mkdir_p (path_parent dest) w =
                  (Ok tt, mkWorld (with_parent dest (files w)) (log w))).
  { unfold mkdir_p, with_parent, bind, stat, set_files, ret.
    destruct (files w !! path_parent dest) as [n|] eqn:Hp; [|done].
    rewrite (Hdir n eq_refl). by destruct w. }
  assert (Hdest1 : with_parent dest (files w) !! dest = None).
  { unfold with_parent. destruct (files w !! path_parent dest); [done|].
    by rewrite lookup_insert_ne. }
  unfold download_file. rewrite (bind_ok _ _ _ _ _ Hmk).
  unfold downloaded. revert Hdest1.
  generalize (with_parent dest (files w)). intros fs1 Hdest1.
  unfold bind, emit. rewrite Hurl. unfold set_files. simpl.
  unfold shutil_move, rename, bind, stat, set_files. simpl.
  generalize (mkstemp fs1 (path_parent dest)). intros tmp.
  destruct (decide (tmp = dest)) as [->|Hne].
  - rewrite lookup_insert_eq. simpl. by rewrite lookup_insert_eq.
  - rewrite lookup_insert_ne, Hdest1 by done.
    simpl. by rewrite lookup_insert_eq.
Qed.

Lemma downloaded_lookup dest body fs :
  downloaded dest body fs !! dest = Some (File body).
Proof. unfold downloaded. apply lookup_insert_eq. Qed.

Lemma extractall_run tar_path members w :
  extractall tar_path members w =
    (Ok tt, mkWorld (extract_fs members (files w))
              (log w ++ extract_log tar_path members)).
Proof.
  revert w. induction members as [|m members IH]; intros w.
  - destruct w. simpl. unfold ret. by rewrite app_nil_r.
  - cbn [extractall]. unfold bind at 1.
    unfold extract_member, bind, set_files, emit.
    rewrite IH. simpl. by rewrite <- app_assoc.
Qed.

Lemma extract_fs_keeps members fs p :
  is_Some (fs !! p) -> is_Some (extract_fs members fs !! p).
Proof.
  revert fs. induction members as [|x members IH]; intros fs Hs; [done|].
  cbn. apply IH.
  destruct (decide (OUTPUT_DIR </> ti_name x = p)) as [->|Hne].
  - rewrite lookup_insert_eq. eauto.
  - by rewrite lookup_insert_ne.
Qed.

Lemma extract_fs_exists members fs m :
  m ∈ members -> is_Some (extract_fs members fs !! (OUTPUT_DIR </> ti_name m)).
Proof.
  revert fs. induction members as [|m' members IH]; intros fs Hin.
  - by apply elem_of_nil in Hin.
  - cbn. apply elem_of_cons in Hin as [->|Hin]; [|by apply IH].
    apply extract_fs_keeps. rewrite lookup_insert_eq. eauto.
Qed.

Lemma verify_members_inv members trk w r w' :
  verify_members members trk w = (r, w') ->
  files w' = files w /\
  exists checks, log w' = log w ++ checks /\ Forall is_sha_event checks.
Proof.
  revert w. induction members as [|m members IH]; intros w Hrun.
  - unfold verify_members, ret in Hrun. simplify_eq.
    split; [done|]. exists []. by rewrite app_nil_r.
  - cbn [verify_members] in Hrun.
    destruct (negb (isfile m)); [by apply IH|].
    destruct (dict_get (ti_name m) trk) as [expected|]; [|by apply IH].
    apply bind_inv in Hrun as [(digest & w1 & Hsha & Hrun)|(e & Hsha & ->)].
    + apply compute_sha256_inv in Hsha as [Hfs [(e & ? & _)|(data & _ & _ & Hlog)]];
        [done|].
      case_bool_decide.
      * unfold raise in Hrun. simplify_eq. split; [done|].
        exists [EvSha256 (OUTPUT_DIR </> ti_name m) (sha256_hex data)].
        split; [done|]. constructor; [|done]. by eexists _, _.
      * apply IH in Hrun as [Hfs' (checks & Hlog' & Hall)].
        split; [congruence|].
        exists (EvSha256 (OUTPUT_DIR </> ti_name m) (sha256_hex data) :: checks).
        split.
        { rewrite Hlog', Hlog, <- app_assoc. done. }
        constructor; [|done]. by eexists _, _.
    + apply compute_sha256_inv in Hsha as [Hfs [(e' & _ & Hlog)|(data & _ & ? & _)]];
        [|done].
      split; [done|]. exists []. by rewrite app_nil_r.
Qed.
Lemma checked_log_skip trk fs m members :
  member_checked trk m = false ->
  checked_log trk fs (m :: members) = checked_log trk fs members.
Proof.
  intros Hm. unfold checked_log.
  rewrite filter_cons_False; [done|]. by rewrite Hm.
Qed.

Lemma checked_log_file trk fs m members data :
  member_checked trk m = true ->
  fs !! (OUTPUT_DIR </> ti_name m) = Some (File data) ->
  checked_log trk fs (m :: members) =
    EvSha256 (OUTPUT_DIR </> ti_name m) (sha256_hex data)
      :: checked_log trk fs members.
Proof.
  intros Hm Hfile. unfold checked_log.
  rewrite filter_cons_True by done. cbn. unfold sha_event at 1.
  by rewrite Hfile.
Qed.

(** The loop runs to its end when every hashed member matches. *)
Lemma verify_members_pass members trk w :
  Forall (member_passes trk (files w)) members ->
  verify_members members trk w =
    (Ok tt, mkWorld (files w) (log w ++ checked_log trk (files w) members)).
Proof.
  revert w. induction members as [|m members IH]; intros w Hall.
  - destruct w. cbn. unfold ret. by rewrite app_nil_r.
  - apply Forall_cons in Hall as [Hm Hall]. cbn [verify_members].
    unfold member_passes, member_checked in Hm.
    destruct (isfile m) eqn:Hfile; cbn [negb].
    2: { rewrite checked_log_skip; [by apply IH|].
         unfold member_checked. by rewrite Hfile. }
    destruct (dict_get (ti_name m) trk) as [expected|] eqn:Hget.
    2: { rewrite checked_log_skip; [by apply IH|].
         unfold member_checked. by rewrite Hfile, Hget. }
    destruct Hm as (data & Hdata & Hexp).
    { done. }
    simplify_eq.
    rewrite (bind_ok _ _ _ _ _ (compute_sha256_file _ _ _ Hdata)).
    rewrite bool_decide_eq_false_2 by (intros Hne; by apply Hne).
    rewrite IH by done. cbn [files log].
    rewrite (checked_log_file _ _ _ _ data); [|
      unfold member_checked; by rewrite Hfile, Hget | done].
    by rewrite <- app_assoc.
Qed.

(** The loop stops at the first hashed member whose digest differs. *)
Lemma verify_members_first_mismatch ms1 m ms2 trk w data expected :
  Forall (member_passes trk (files w)) ms1 ->
  isfile m = true ->
  dict_get (ti_name m) trk = Some expected ->
  files w !! (OUTPUT_DIR </> ti_name m) = Some (File data) ->
  sha256_hex data <> expected ->
  verify_members (ms1 ++ m :: ms2) trk w =
    (Raise (RuntimeError
              ("Checksum mismatch: " +:+ path_str (OUTPUT_DIR </> ti_name m))),
     mkWorld (files w)
       (log w ++ checked_log trk (files w) ms1
          ++ [EvSha256 (OUTPUT_DIR </> ti_name m) (sha256_hex data)])).
Proof.
  intros Hall Hfile Hget Hdata Hne. revert w Hall Hdata.
  induction ms1 as [|x ms1 IH]; intros w Hall Hdata.
  - cbn [app verify_members]. rewrite Hfile, Hget. cbn [negb].
    rewrite (bind_ok _ _ _ _ _ (compute_sha256_file _ _ _ Hdata)).
    by rewrite bool_decide_eq_true_2.
  - apply Forall_cons in Hall as [Hx Hall].
    change ((x :: ms1) ++ m :: ms2) with (x :: (ms1 ++ m :: ms2)).
    cbn [verify_members].
    unfold member_passes, member_checked in Hx.
    destruct (isfile x) eqn:Hxf; cbn [negb].
    2: { rewrite checked_log_skip; [by apply IH|].
         unfold member_checked. by rewrite Hxf. }
    destruct (dict_get (ti_name x) trk) as [ex|] eqn:Hxg.
    2: { rewrite checked_log_skip; [by apply IH|].
         unfold member_checked. by rewrite Hxf, Hxg. }
    destruct Hx as (dx & Hdx & Hex).
    { done. }
    simplify_eq.
    rewrite (bind_ok _ _ _ _ _ (compute_sha256_file _ _ _ Hdx)).
    rewrite bool_decide_eq_false_2 by (intros Hn; by apply Hn).
    rewrite IH by done. cbn [files log].
    rewrite (checked_log_file _ _ _ _ dx); [|
      unfold member_checked; by rewrite Hxf, Hxg | done].
    by rewrite <- !app_assoc.
Qed.

Lemma tar_open_ok tar_path w body members :
  files w !! tar_path = Some (File body) ->
  tar_members body = Some members ->
  tar_open tar_path w = (Ok members, w).
Proof.
  intros Hfile Htar. unfold tar_open.
  rewrite (bind_ok _ _ _ _ _ (read_bytes_file _ _ _ Hfile)).
  by rewrite Htar.
Qed.

(** An opened archive is extracted whole before the loop starts. *)
Lemma unpack_and_verify_run tar_path trk w body members :
  files w !! tar_path = Some (File body) ->
  tar_members body = Some members ->
  unpack_and_verify tar_path trk w =
    verify_members members trk
      (mkWorld (extract_fs members (files w))
         (log w ++ extract_log tar_path members)).
Proof.
  intros Hfile Htar. unfold unpack_and_verify.
  rewrite (bind_ok _ _ _ _ _ (tar_open_ok _ _ _ _ Hfile Htar)).
  by rewrite (bind_ok _ _ _ _ _ (extractall_run _ _ _)).
Qed.

Lemma unpack_and_verify_inv tar_path trk w r w' :
  unpack_and_verify tar_path trk w = (r, w') ->
  exists delta,
    log w' = log w ++ delta /\
    Forall (fun e => (exists m, e = EvExtract tar_path m) \/ is_sha_event e)
      delta.
Proof.
  unfold unpack_and_verify. intros Hrun.
  apply bind_inv in Hrun as [(members & w1 & Hopen & Hrun)|(e & Hopen & ->)].
  - unfold tar_open in Hopen.
    apply bind_inv in Hopen as [(body & w2 & Hread & Hopen)|(e & Hread & ?)];
      [|done].
    apply read_bytes_inv in Hread as [-> _].
    destruct (tar_members body); unfold ret, raise in Hopen; simplify_eq.
    rewrite (bind_ok _ _ _ _ _ (extractall_run _ _ _)) in Hrun.
    apply verify_members_inv in Hrun as [_ (checks & Hlog & Hall)].
    cbn in Hlog. exists (extract_log tar_path members ++ checks).
    split; [by rewrite Hlog, <- app_assoc|].
    apply Forall_app. split.
    + unfold extract_log. apply Forall_fmap, Forall_forall.
      intros m _. left. by eexists.
    + eapply Forall_impl; [done|]. by right.
  - exists []. split; [|done]. rewrite app_nil_r.
    unfold tar_open in Hopen.
    apply bind_inv in Hopen as [(body & w2 & Hread & Hopen)|(e' & Hread & ?)].
    + apply read_bytes_inv in Hread as [-> _].
      destruct (tar_members body); unfold ret, raise in Hopen; by simplify_eq.
    + by apply read_bytes_inv in Hread as [-> _].
Qed.
Lemma download_file_log url dest w r w' :
  download_file url dest w = (r, w') ->
  log w' = log w \/ log w' = log w ++ [EvHttpGet url].
Proof.
  unfold download_file. intros Hrun.
  apply bind_inv in Hrun as [([] & w1 & Hmk & Hrun)|(e & Hmk & _)].
  2: { left. by apply keeps_log_mkdir_p in Hmk. }
  apply keeps_log_mkdir_p in Hmk.
  apply bind_inv in Hrun as [([] & w2 & Hemit & Hrun)|(e & ? & _)];
    [|done].
  unfold emit in Hemit. simplify_eq. right. rewrite <- Hmk.
  destruct (remote url) as [body|].
  - remember (mkWorld (files w1) (log w1 ++ [EvHttpGet url])) as w2 eqn:Hw2.
    assert (Hlog : log w2 = log w1 ++ [EvHttpGet url]) by by subst.
    clear Hw2.
    apply bind_inv in Hrun as [(fs & w3 & Hfs & Hrun)|(e & ? & _)];
      [|done].
    simplify_eq.
    apply bind_inv in Hrun as [([] & w4 & Hset & Hrun)|(e & ? & _)];
      [|done].
    apply keeps_log_set_files in Hset.
    apply keeps_log_shutil_move in Hrun. congruence.
  - unfold raise in Hrun. by simplify_eq.
Qed.

(** *** Extraction comes after the archive check *)

Lemma extraction_guarded_no_extract tc names tr :
  no_extract tr -> extraction_guarded tc names tr.
Proof.
  intros Hno pre tar_path member post ->.
  destruct (Hno tar_path member). apply elem_of_app. right. by left.
Qed.

Lemma extraction_guarded_app tc names1 names2
    (tr1 tr2 : list (event path)) :
  extraction_guarded tc names1 tr1 ->
  extraction_guarded tc names2 tr2 ->
  extraction_guarded tc (names1 ++ names2) (tr1 ++ tr2).
Proof.
  intros H1 H2 pre tar_path member post Heq.
  apply app_eq_inv in Heq as [(k & Hpre & Hpost)|(k & Htr1 & Htr2)].
  - destruct k as [|e k].
    + rewrite app_nil_r in Hpre. subst tr1. cbn in Hpost.
      destruct (H2 [] tar_path member post (eq_sym Hpost))
        as (n & d & _ & _ & _ & Hin).
      by apply elem_of_nil in Hin.
    + cbn in Hpost. simplify_eq.
      destruct (H1 pre tar_path member k eq_refl) as (n & d & ? & ? & ? & ?).
      exists n, d. repeat split; try done. apply elem_of_app. by left.
  - subst. destruct (H2 k tar_path member post eq_refl)
      as (n & d & ? & ? & ? & ?).
    exists n, d. repeat split; try done.
    + apply elem_of_app. by right.
    + apply elem_of_app. by right.
Qed.

Lemma extraction_guarded_after_check tc name digest
    (tr0 tr1 : list (event path)) :
  dict_get name tc = Some digest ->
  no_extract tr0 ->
  Forall (fun e => (exists m, e = EvExtract (OUTPUT_DIR </> name) m) \/
                   no_extract [e]) tr1 ->
  extraction_guarded tc [name]
    (tr0 ++ EvSha256 (OUTPUT_DIR </> name) digest :: tr1).
Proof.
  intros Hget Hno Hall pre tar_path member post Heq.
  assert (Hin : EvExtract tar_path member ∈ tr1).
  { assert (Hx : EvExtract tar_path member ∈
                   tr0 ++ EvSha256 (OUTPUT_DIR </> name) digest :: tr1).
    { rewrite Heq. apply elem_of_app. right. by left. }
    apply elem_of_app in Hx as [Hx|Hx]; [by apply Hno in Hx|].
    by apply elem_of_cons in Hx as [?|Hx]. }
  apply app_eq_inv in Heq as [(k & Htr0 & Hpost)|(k & Hpre & Htr1)].
  - destruct k as [|e k]; [done|].
    cbn in Hpost. simplify_eq. destruct (Hno tar_path member).
    apply elem_of_app. right. by left.
  - destruct k as [|e k]; [done|].
    cbn in Htr1. simplify_eq.
    assert (tar_path = OUTPUT_DIR </> name) as ->.
    { rewrite Forall_forall in Hall.
      destruct (Hall _ Hin) as [[m ?]|Hne]; [by simplify_eq|].
      destruct (Hne tar_path member). by left. }
    exists name, digest. repeat split; [by left|done|].
    apply elem_of_app. right. by left.
Qed.
Lemma no_extract_nil : no_extract ([] : list (event path)).
Proof. intros ?? Hin. by apply elem_of_nil in Hin. Qed.

Lemma no_extract_cons (e : event path) tr :
  (forall t m, e <> EvExtract t m) -> no_extract tr -> no_extract (e :: tr).
Proof.
  intros He Htr t m Hin. apply elem_of_cons in Hin as [Heq|Hin].
  - by destruct (He t m).
  - by destruct (Htr t m).
Qed.

Lemma no_extract_app (tr1 tr2 : list (event path)) :
  no_extract tr1 -> no_extract tr2 -> no_extract (tr1 ++ tr2).
Proof.
  intros H1 H2 t m Hin. apply elem_of_app in Hin as [Hin|Hin].
  - by destruct (H1 t m).
  - by destruct (H2 t m).
Qed.

Lemma unlink_log p missing_ok w r w' :
  unlink p missing_ok w = (r, w') ->
  exists tr, log w' = log w ++ tr /\ no_extract tr.
Proof.
  intros Hrun. apply unlink_inv in Hrun as (_ & [Hlog|Hlog] & _).
  - exists []. rewrite app_nil_r. auto using no_extract_nil.
  - exists [EvUnlink p]. auto using no_extract_cons, no_extract_nil.
Qed.

Lemma download_file_trace url dest w r w' :
  download_file url dest w = (r, w') ->
  exists tr, log w' = log w ++ tr /\ no_extract tr.
Proof.
  intros Hrun. apply download_file_log in Hrun as [Hlog|Hlog].
  - exists []. rewrite app_nil_r. auto using no_extract_nil.
  - exists [EvHttpGet url]. auto using no_extract_cons, no_extract_nil.
Qed.

(** One iteration of the loop. *)
Lemma fetch_and_verify_guarded tc trk name w r w' :
  fetch_and_verify tc trk name w = (r, w') ->
  exists delta,
    log w' = log w ++ delta /\ extraction_guarded tc [name] delta.
Proof.
  unfold fetch_and_verify. intros Hrun.
  rewrite (bind_ok _ _ _ _ _ (path_exists_run _ _)) in Hrun.
  destruct (bool_decide _).
  { unfold ret in Hrun. simplify_eq. exists []. rewrite app_nil_r.
    auto using extraction_guarded_no_extract, no_extract_nil. }
  apply bind_inv in Hrun as [([] & w1 & Hdl & Hrun)|(e & Hdl & _)].
  2: { apply download_file_trace in Hdl as (tr & ? & ?).
       exists tr. auto using extraction_guarded_no_extract. }
  apply download_file_trace in Hdl as (tr0 & Hlog0 & Hno0).
  apply bind_inv in Hrun as [(digest & w2 & Hsha & Hrun)|(e & Hsha & _)].
  2: { apply compute_sha256_inv in Hsha
         as [_ [(e' & _ & Hlog)|(data & _ & ? & _)]]; [|done].
       exists tr0. split; [congruence|].
       auto using extraction_guarded_no_extract. }
  apply compute_sha256_inv in Hsha
    as [_ [(e' & ? & _)|(data & _ & Hdig & Hlog)]]; [done|].
  simplify_eq.
  set (tar_path := OUTPUT_DIR </> name) in *.
  assert (Hsha_no : no_extract (tr0 ++ [EvSha256 tar_path (sha256_hex data)])).
  { apply no_extract_app; auto using no_extract_cons, no_extract_nil. }
  unfold dict_getitem in Hrun.
  destruct (dict_get name tc) as [expected|] eqn:Hget.
  2: { unfold bind, raise in Hrun. simplify_eq.
       exists (tr0 ++ [EvSha256 tar_path (sha256_hex data)]).
       split; [by rewrite Hlog, Hlog0, <- app_assoc|].
       auto using extraction_guarded_no_extract. }
  unfold bind at 1 in Hrun. unfold ret at 1 in Hrun.
  case_bool_decide as Hcmp.
  - apply bind_inv in Hrun as [([] & w3 & Hun & Hrun)|(e & Hun & _)];
      [unfold raise in Hrun; simplify_eq|];
      apply unlink_log in Hun as (tr1 & Hlog1 & Hno1);
      (exists ((tr0 ++ [EvSha256 tar_path (sha256_hex data)]) ++ tr1);
       split; [by rewrite Hlog1, Hlog, Hlog0, <- !app_assoc|];
       auto using extraction_guarded_no_extract, no_extract_app).
  - assert (sha256_hex data = expected) as <-.
    { destruct (decide (sha256_hex data = expected)); [done|].
      by destruct Hcmp. }
    assert (Hend : exists tr1,
      log w' = log w2 ++ tr1 /\
      Forall (fun e => (exists m, e = EvExtract tar_path m) \/ no_extract [e])
        tr1).
    { apply bind_inv in Hrun as [([] & w3 & Hup & Hrun)|(e & Hup & _)].
      - apply unpack_and_verify_inv in Hup as (tr1 & Hlog1 & Hall1).
        apply unlink_log in Hrun as (tr2 & Hlog2 & Hno2).
        exists (tr1 ++ tr2). split; [by rewrite Hlog2, Hlog1, <- app_assoc|].
        apply Forall_app. split.
        + eapply Forall_impl; [done|]. intros e [?|(p' & d' & ->)]; [by left|].
          right. auto using no_extract_cons, no_extract_nil.
        + apply Forall_forall. intros e He. right.
          intros t m Hin. apply list_elem_of_singleton in Hin as <-.
          by destruct (Hno2 t m).
      - apply unpack_and_verify_inv in Hup as (tr1 & Hlog1 & Hall1).
        exists tr1. split; [done|].
        eapply Forall_impl; [done|]. intros e' [?|(p' & d' & ->)]; [by left|].
        right. auto using no_extract_cons, no_extract_nil. }
    destruct Hend as (tr1 & Hlog1 & Hall1).
    exists (tr0 ++ EvSha256 tar_path (sha256_hex data) :: tr1). split.
    + rewrite Hlog1, Hlog, Hlog0, <- !app_assoc. done.
    + by apply extraction_guarded_after_check.
Qed.

Lemma for_each_tar_guarded tc trk names w r w' :
  for_each_tar tc trk names w = (r, w') ->
  exists delta,
    log w' = log w ++ delta /\ extraction_guarded tc names delta.
Proof.
  revert w. induction names as [|name names IH]; intros w Hrun.
  - unfold for_each_tar, ret in Hrun. simplify_eq. exists [].
    rewrite app_nil_r.
    auto using extraction_guarded_no_extract, no_extract_nil.
  - cbn [for_each_tar] in Hrun.
    apply bind_inv in Hrun as [([] & w1 & Hone & Hrun)|(e & Hone & _)].
    + apply fetch_and_verify_guarded in Hone as (d1 & Hlog1 & Hg1).
      apply IH in Hrun as (d2 & Hlog2 & Hg2).
      exists (d1 ++ d2). split; [by rewrite Hlog2, Hlog1, <- app_assoc|].
      by apply (extraction_guarded_app tc [name] names).
    + apply fetch_and_verify_guarded in Hone as (d1 & Hlog1 & Hg1).
      exists d1. split; [done|].
      rewrite <- (app_nil_r d1).
      apply (extraction_guarded_app tc [name] names); [done|].
      auto using extraction_guarded_no_extract, no_extract_nil.
Qed.

Lemma load_checksums_inv file w r w' :
  load_checksums file w = (r, w') -> w' = w.
Proof.
  unfold load_checksums. intros Hrun.
  apply bind_inv in Hrun as [(text & w1 & Hread & Hrun)|(e & Hread & _)].
  - apply read_bytes_inv in Hread as [-> _].
    destruct (dict_of_rows _ _); unfold ret, raise in Hrun; by simplify_eq.
  - by apply read_bytes_inv in Hread as [-> _].
Qed.

(** C2: in every run of the fetcher over a list of archive names, each
    member extraction recorded in the log is preceded by a hash of that
    archive's file whose digest equals the one the archive manifest
    records for the archive: extraction never comes before a successful
    archive-level check. *)
Theorem extraction_only_after_archive_check tar_names w r w' :
  _download_tars tar_names w = (r, w') ->
  exists delta,
    log w' = log w ++ delta /\
    forall pre tar_path member post,
      delta = pre ++ EvExtract tar_path member :: post ->
      exists tc tar_name digest,
        load_tar_checksums w = (Ok tc, w) /\
        tar_name ∈ tar_names /\
        tar_path = OUTPUT_DIR </> tar_name /\
        dict_get tar_name tc = Some digest /\
        EvSha256 tar_path digest ∈ pre.
Proof.
  unfold _download_tars. intros Hrun.
  apply bind_inv in Hrun as [(tc & w1 & Htc & Hrun)|(e & Htc & _)].
  2: { pose proof (load_checksums_inv _ _ _ _ Htc) as ->.
       exists []. rewrite app_nil_r. split; [done|].
       intros pre ??? Heq. by destruct pre. }
  pose proof (load_checksums_inv _ _ _ _ Htc) as ->.
  apply bind_inv in Hrun as [(trk & w1 & Htrk & Hrun)|(e & Htrk & _)].
  2: { pose proof (load_checksums_inv _ _ _ _ Htrk) as ->.
       exists []. rewrite app_nil_r. split; [done|].
       intros pre ??? Heq. by destruct pre. }
  pose proof (load_checksums_inv _ _ _ _ Htrk) as ->.
  apply for_each_tar_guarded in Hrun as (delta & Hlog & Hg).
  exists delta. split; [done|].
  intros pre tar_path member post Heq.
  destruct (Hg _ _ _ _ Heq) as (n & d & ? & ? & ? & ?).
  exists tc, n, d. done.
Qed.
(** *** Archive-level outcomes *)

(** C7: when something already exists at the archive's local path,
    [fetch_and_verify] returns at once and leaves the world as it was:
    nothing is requested, hashed, extracted or deleted, and the loop goes
    on with the next name. *)
Theorem fetch_and_verify_existing_noop tc trk name w :
  is_Some (files w !! (OUTPUT_DIR </> name)) ->
  fetch_and_verify tc trk name w = (Ok tt, w) /\
  forall rest,
    for_each_tar tc trk (name :: rest) w = for_each_tar tc trk rest w.
Proof.
  intros Hex.
  assert (Hskip : fetch_and_verify tc trk name w = (Ok tt, w)).
  { unfold fetch_and_verify.
    rewrite (bind_ok _ _ _ _ _ (path_exists_run _ _)).
    by rewrite bool_decide_eq_true_2. }
  split; [done|]. intros rest. cbn [for_each_tar].
  by rewrite (bind_ok _ _ _ _ _ Hskip).
Qed.

(** C1: when the downloaded archive hashes to something else than the
    digest the archive manifest records for its name, [fetch_and_verify]
    deletes the downloaded file and raises the archive-level integrity
    error (a [RuntimeError] saying [Bad checksum for <name>]); afterwards
    nothing exists at the archive's path, and the loop has stopped there:
    no retry, no further archive. *)
Theorem fetch_and_verify_bad_archive tc trk name w body expected :
  files w !! (OUTPUT_DIR </> name) = None ->
  path_parent (OUTPUT_DIR </> name) <> OUTPUT_DIR </> name ->
  (forall n, files w !! path_parent (OUTPUT_DIR </> name) = Some n -> n = Dir) ->
  remote (tar_url name) = Some body ->
  dict_get name tc = Some expected ->
  sha256_hex body <> expected ->
  exists w',
    fetch_and_verify tc trk name w =
      (Raise (RuntimeError ("Bad checksum for " +:+ name)), w') /\
    (forall rest,
       for_each_tar tc trk (name :: rest) w =
         (Raise (RuntimeError ("Bad checksum for " +:+ name)), w')) /\
    files w' !! (OUTPUT_DIR </> name) = None /\
    log w' = log w ++ [EvHttpGet (tar_url name);
                       EvSha256 (OUTPUT_DIR </> name) (sha256_hex body);
                       EvUnlink (OUTPUT_DIR </> name)].
Proof.
  intros Habs Hpar Hdir Hurl Hget Hne.
  assert (Hrun : exists w',
    fetch_and_verify tc trk name w =
      (Raise (RuntimeError ("Bad checksum for " +:+ name)), w') /\
    files w' !! (OUTPUT_DIR </> name) = None /\
    log w' = log w ++ [EvHttpGet (tar_url name);
                       EvSha256 (OUTPUT_DIR </> name) (sha256_hex body);
                       EvUnlink (OUTPUT_DIR </> name)]).
  { unfold fetch_and_verify.
    rewrite (bind_ok _ _ _ _ _ (path_exists_run _ _)), Habs.
    rewrite bool_decide_eq_false_2 by (by intros [? ?]).
    rewrite (bind_ok _ _ _ _ _
               (download_file_ok _ _ _ _ Hpar Hdir Habs Hurl)).
    erewrite bind_ok; [|by apply compute_sha256_file, downloaded_lookup].
    unfold dict_getitem. rewrite Hget.
    unfold bind at 1. unfold ret at 1.
    rewrite bool_decide_eq_true_2 by done.
    unfold unlink, bind, stat, set_files, emit, raise. cbn.
    rewrite downloaded_lookup. eexists. split; [reflexivity|]. cbn.
    split; [apply lookup_delete_eq|]. by rewrite <- !app_assoc. }
  destruct Hrun as (w' & Hrun & Hgone & Hlog).
  exists w'. split; [done|]. split; [|done].
  intros rest. cbn [for_each_tar]. by rewrite (bind_raise _ _ _ _ _ Hrun).
Qed.

(** C8: an archive that was not there before and whose processing
    succeeds is gone afterwards, the deletion being the last thing done;
    and processing does succeed when the download, the archive digest and
    every hashed member check out. *)
Theorem fetch_and_verify_removes_archive tc trk name w :
  files w !! (OUTPUT_DIR </> name) = None ->
  (forall w',
     fetch_and_verify tc trk name w = (Ok tt, w') ->
     files w' !! (OUTPUT_DIR </> name) = None /\
     last (log w') = Some (EvUnlink (OUTPUT_DIR </> name))) /\
  (forall body members,
     path_parent (OUTPUT_DIR </> name) <> OUTPUT_DIR </> name ->
     (forall n,
        files w !! path_parent (OUTPUT_DIR </> name) = Some n -> n = Dir) ->
     remote (tar_url name) = Some body ->
     dict_get name tc = Some (sha256_hex body) ->
     tar_members body = Some members ->
     Forall (member_passes trk
               (extract_fs members
                  (downloaded (OUTPUT_DIR </> name) body (files w))))
       members ->
     extract_fs members (downloaded (OUTPUT_DIR </> name) body (files w))
       !! (OUTPUT_DIR </> name) <> Some Dir ->
     exists w',
       fetch_and_verify tc trk name w = (Ok tt, w') /\
       files w' =
         delete (OUTPUT_DIR </> name)
           (extract_fs members
              (downloaded (OUTPUT_DIR </> name) body (files w)))).
Proof.
  intros Habs. split.
  - intros w' Hrun. unfold fetch_and_verify in Hrun.
    rewrite (bind_ok _ _ _ _ _ (path_exists_run _ _)), Habs in Hrun.
    rewrite bool_decide_eq_false_2 in Hrun by (by intros [? ?]).
    apply bind_inv in Hrun as [([] & w1 & _ & Hrun)|(e & _ & ?)]; [|done].
    apply bind_inv in Hrun as [(digest & w2 & _ & Hrun)|(e & _ & ?)];
      [|done].
    apply bind_inv in Hrun as [(expected & w3 & _ & Hrun)|(e & _ & ?)];
      [|done].
    destruct (bool_decide _).
    + apply bind_inv in Hrun as [([] & w4 & _ & Hrun)|(e & _ & ?)];
        [|done].
      unfold raise in Hrun. by simplify_eq.
    + apply bind_inv in Hrun as [([] & w4 & _ & Hrun)|(e & _ & ?)];
        [|done].
      apply unlink_inv in Hrun as (Hgone & _ & Hlog).
      split; [by apply Hgone|].
      rewrite Hlog by done. apply last_snoc.
  - intros body members Hpar Hdir Hurl Hget Htar Hall Hnd.
    unfold fetch_and_verify.
    rewrite (bind_ok _ _ _ _ _ (path_exists_run _ _)), Habs.
    rewrite bool_decide_eq_false_2 by (by intros [? ?]).
    rewrite (bind_ok _ _ _ _ _
               (download_file_ok _ _ _ _ Hpar Hdir Habs Hurl)).
    erewrite bind_ok; [|by apply compute_sha256_file, downloaded_lookup].
    unfold dict_getitem. rewrite Hget.
    unfold bind at 1. unfold ret at 1.
    rewrite bool_decide_eq_false_2 by (intros Hn; by apply Hn).
    erewrite bind_ok.
    2: { erewrite unpack_and_verify_run;
           [|apply downloaded_lookup|exact Htar].
         by apply verify_members_pass. }
    cbn [files log].
    set (fsx := extract_fs members _) in *.
    assert (Hsome : is_Some (fsx !! (OUTPUT_DIR </> name))).
    { apply extract_fs_keeps. rewrite downloaded_lookup. eauto. }
    unfold unlink, bind, stat, set_files, emit. cbn.
    destruct Hsome as [n Hn]. rewrite Hn.
    destruct n; [|done|]; eexists; split; reflexivity.
Qed.

(** *** Member-level outcomes *)

(** C6: once the archive is extracted, the members that are regular files
    listed in the track manifest are hashed from disk in archive order and
    compared with the manifest digest; members that are not regular files
    or not listed are passed over without being hashed.  When all hashed
    members match, the call returns; at the first one that does not, it
    raises the member-level integrity error naming that member's path.
    In both cases the file store is the one extraction left: nothing is
    rolled back. *)
Theorem unpack_and_verify_members tar_path trk w body members :
  files w !! tar_path = Some (File body) ->
  tar_members body = Some members ->
  (Forall (member_passes trk (extract_fs members (files w))) members ->
   unpack_and_verify tar_path trk w =
     (Ok tt,
      mkWorld (extract_fs members (files w))
        (log w ++ extract_log tar_path members
           ++ checked_log trk (extract_fs members (files w)) members))) /\
  (forall ms1 m ms2 data expected,
     members = ms1 ++ m :: ms2 ->
     Forall (member_passes trk (extract_fs members (files w))) ms1 ->
     isfile m = true ->
     dict_get (ti_name m) trk = Some expected ->
     extract_fs members (files w) !! (OUTPUT_DIR </> ti_name m)
       = Some (File data) ->
     sha256_hex data <> expected ->
     unpack_and_verify tar_path trk w =
       (Raise (RuntimeError
                 ("Checksum mismatch: "
                    +:+ path_str (OUTPUT_DIR </> ti_name m))),
        mkWorld (extract_fs members (files w))
          (log w ++ extract_log tar_path members
             ++ checked_log trk (extract_fs members (files w)) ms1
             ++ [EvSha256 (OUTPUT_DIR </> ti_name m) (sha256_hex data)]))).
Proof.
  intros Hfile Htar. rewrite (unpack_and_verify_run _ _ _ _ _ Hfile Htar).
  split.
  - intros Hall. rewrite verify_members_pass by done. cbn.
    by rewrite <- app_assoc.
  - intros ms1 m ms2 data expected -> Hall Hreg Hget Hdata Hne.
    erewrite verify_members_first_mismatch by done. cbn.
    by rewrite <- !app_assoc.
Qed.

(** C10: [unpack_and_verify] extracts the whole archive before it hashes
    anything.  Whatever the outcome of the member checks (so also when a
    mismatch is raised), the log shows every member extracted, in archive
    order, followed only by hashes; the file store is the fully extracted
    one, and an entry exists for every member, those listed after a
    mismatching one included. *)
Theorem unpack_and_verify_extracts_all tar_path trk w body members r w' :
  files w !! tar_path = Some (File body) ->
  tar_members body = Some members ->
  unpack_and_verify tar_path trk w = (r, w') ->
  files w' = extract_fs members (files w) /\
  (exists checks,
     log w' = log w ++ extract_log tar_path members ++ checks /\
     Forall is_sha_event checks) /\
  (forall m, m ∈ members ->
     is_Some (files w' !! (OUTPUT_DIR </> ti_name m))).
Proof.
  intros Hfile Htar Hrun.
  rewrite (unpack_and_verify_run _ _ _ _ _ Hfile Htar) in Hrun.
  apply verify_members_inv in Hrun as [Hfs (checks & Hlog & Hall)].
  cbn in Hfs, Hlog. split; [done|]. split.
  - exists checks. by rewrite Hlog, <- app_assoc.
  - intros m Hin. rewrite Hfs. by apply extract_fs_exists.
Qed.
(** *** Sample selection *)

Lemma swap_Some i j (x : list string) :
  i < length x -> j < length x ->
  exists x', swap i j x = Some x' /\ length x' = length x.
Proof.
  intros Hi Hj. unfold swap.
  destruct (lookup_lt_is_Some_2 x j Hj) as [xj ->].
  destruct (lookup_lt_is_Some_2 x i Hi) as [xi ->].
  eexists. split; [reflexivity|]. by rewrite !length_insert.
Qed.

Lemma shuffle_loop_Some i g (x : list string) :
  (forall g n, (randbelow g (S n)).1 < S n) ->
  i < length x \/ i = 0 ->
  exists x', shuffle_loop i g x = Some x' /\ length x' = length x.
Proof.
  intros Hrb. revert g x. induction i as [|i IH]; intros g x Hi.
  - by exists x.
  - destruct Hi as [Hi|?]; [|done]. cbn [shuffle_loop].
    pose proof (Hrb g (S i)) as Hj.
    destruct (randbelow g (S (S i))) as [j g']. cbn in Hj.
    destruct (swap_Some (S i) j x) as (x1 & -> & Hlen1); [lia..|].
    destruct (IH g' x1) as (x' & -> & Hlen'); [lia|].
    exists x'. split; [done|]. congruence.
Qed.

Lemma load_checksums_ok file w text d :
  files w !! file = Some (File text) ->
  dict_of_rows (csv_reader text) [] = Some d ->
  load_checksums file w = (Ok d, w).
Proof.
  intros Hfile Hrows. unfold load_checksums.
  rewrite (bind_ok _ _ _ _ _ (read_bytes_file _ _ _ Hfile)).
  by rewrite Hrows.
Qed.

(** C4: for a manifest with [N] archive names, [1 <= N], the sample has
    exactly [max(1, floor(N / 20))] names.  The product [N * 0.05] is the
    binary64 one of the code; its integer part is [floor(N / 20)] for
    every length below [2^51]. *)
Theorem select_sample_size w text tc :
  files w !! SHA256_TARS_FILE = Some (File text) ->
  dict_of_rows (csv_reader text) [] = Some tc ->
  (1 <= Z.of_nat (length tc) < 2 ^ 51)%Z ->
  (forall g n, (randbelow g (S n)).1 < S n) ->
  exists sample,
    select_sample w = (Ok sample, w) /\
    Z.of_nat (length sample) = Z.max 1 (Z.of_nat (length tc) / 20).
Proof.
  intros Hfile Hrows HN Hrb. unfold select_sample, load_tar_checksums.
  rewrite (bind_ok _ _ _ _ _ (load_checksums_ok _ _ _ _ Hfile Hrows)).
  unfold shuffle.
  destruct (shuffle_loop_Some (length (dict_keys tc) - 1) (seed_rng SEED)
              (dict_keys tc) Hrb) as (names & -> & Hlen); [lia|].
  unfold dict_keys in Hlen. rewrite length_fmap in Hlen.
  unfold bind, ret. eexists. split; [reflexivity|].
  rewrite Hlen, length_take_le.
  - by apply sample_size_spec.
  - rewrite Hlen. by apply sample_size_le.
Qed.

(** C5: the selection is a function of the seed constant and of the
    content of the archive manifest alone.  Whatever else two worlds
    hold, if the manifest file is the same in both then [select_sample]
    returns the same names in the same order (or fails alike); and it
    leaves the world as it found it, so a second invocation sees the same
    input as the first. *)
Theorem select_sample_deterministic w1 w2 :
  files w1 !! SHA256_TARS_FILE = files w2 !! SHA256_TARS_FILE ->
  (select_sample w1).1 = (select_sample w2).1 /\
  (select_sample w1).2 = w1 /\
  (select_sample w2).2 = w2.
Proof.
  intros Hsame.
  unfold select_sample, load_tar_checksums, load_checksums, read_bytes,
    shuffle, bind, stat, ret, raise.
  rewrite <- Hsame.
  destruct (files w1 !! SHA256_TARS_FILE) as [[text| |]|]; try done.
  destruct (dict_of_rows _ _) as [tc|]; [|done].
  by destruct (shuffle_loop _ _ _).
Qed.
End DownloadFacts.

(** ** The batch transcoder *)

Lemma rfind_dot_app t s i :
  rfind_dot s = Some i -> rfind_dot (t +:+ s) = Some (String.length t + i).
Proof.
  intros Hs. induction t as [|c t IH]; [done|].
  change (String c t +:+ s) with (String c (t +:+ s)).
  cbn [rfind_dot]. by rewrite IH.
Qed.

Lemma str_take_app t s : str_take (String.length t) (t +:+ s) = t.
Proof.
  induction t as [|c t IH].
  - by destruct s.
  - change (String c t +:+ s) with (String c (t +:+ s)).
    cbn [String.length str_take]. by rewrite IH.
Qed.

Lemma str_length_app t s :
  String.length (t +:+ s) = String.length t + String.length s.
Proof.
  induction t as [|c t IH]; [done|].
  change (String c t +:+ s) with (String c (t +:+ s)).
  cbn [String.length]. by rewrite IH.
Qed.

(** The stem of [<t>.mp3] is [<t>]. *)
Lemma stem_of_name_mp3 t :
  t <> EmptyString -> stem_of_name (t +:+ ".mp3") = t.
Proof.
  intros Ht. unfold stem_of_name.
  rewrite (rfind_dot_app t ".mp3" 0) by done.
  rewrite str_length_app, Nat.add_0_r. cbn [String.length].
  assert (0 < String.length t) by (destruct t; [done|cbn; lia]).
  rewrite !bool_decide_eq_true_2 by lia. cbn [andb].
  apply str_take_app.
Qed.

Section ConvertFacts.
Context {path : Type} `{Countable path} `{!PathLib path} `{!Processes path}.
Import Convert.

Implicit Types (w : world path) (src : path) (fs : gmap path node).

Lemma ffmpeg_cmd_output src :
  last (ffmpeg_cmd src) = Some (path_str (dst_of src)).
Proof. reflexivity. Qed.

Lemma convert_one_success src w fs n :
  run_process (ffmpeg_cmd src) (files w) = Exited 0 fs ->
  fs !! src = Some n -> n <> Dir ->
  convert_one src w =
    (Ok (path_name src),
     mkWorld (delete src fs)
       (log w ++ [EvRun (ffmpeg_cmd src); EvUnlink src])).
Proof.
  intros Hrun Hsrc Hn.
  unfold convert_one, subprocess_run_check, bind. rewrite Hrun.
  rewrite bool_decide_eq_true_2 by done.
  unfold unlink, bind, stat, set_files, emit, ret. cbn.
  rewrite Hsrc. destruct n; [|done|]; cbn; by rewrite <- app_assoc.
Qed.

Lemma convert_one_failure src w fs code :
  code <> 0%Z ->
  run_process (ffmpeg_cmd src) (files w) = Exited code fs ->
  convert_one src w =
    (Raise (CalledProcessError code (ffmpeg_cmd src)),
     mkWorld fs (log w ++ [EvRun (ffmpeg_cmd src)])).
Proof.
  intros Hcode Hrun.
  unfold convert_one, subprocess_run_check, bind. rewrite Hrun.
  by rewrite bool_decide_eq_false_2.
Qed.

(** C3: for a source whose file name is [<t>.mp3], the process is told
    to write [<t>.wav] in the destination root.  When it exits with code
    zero the source is deleted, after the run and not before; when it
    exits with another code, [convert_one] raises that failure and
    deletes nothing: the file store is the one the process left, with
    the source in it whenever the process left it there. *)
Theorem convert_one_outcomes src t w :
  path_name src = t +:+ ".mp3" ->
  t <> EmptyString ->
  dst_of src = DST_DIR </> (t +:+ ".wav") /\
  last (ffmpeg_cmd src) = Some (path_str (DST_DIR </> (t +:+ ".wav"))) /\
  (forall fs n,
     run_process (ffmpeg_cmd src) (files w) = Exited 0 fs ->
     fs !! src = Some n -> n <> Dir ->
     convert_one src w =
       (Ok (path_name src),
        mkWorld (delete src fs)
          (log w ++ [EvRun (ffmpeg_cmd src); EvUnlink src]))) /\
  (forall code fs,
     code <> 0%Z ->
     run_process (ffmpeg_cmd src) (files w) = Exited code fs ->
     convert_one src w =
       (Raise (CalledProcessError code (ffmpeg_cmd src)),
        mkWorld fs (log w ++ [EvRun (ffmpeg_cmd src)])) /\
     (convert_one src w).2.(files) !! src = fs !! src).
Proof.
  intros Hname Ht.
  assert (Hdst : dst_of src = DST_DIR </> (t +:+ ".wav")).
  { unfold dst_of, stem. by rewrite Hname, stem_of_name_mp3. }
  split; [done|]. split; [by rewrite ffmpeg_cmd_output, Hdst|]. split.
  - intros fs n. apply convert_one_success.
  - intros code fs Hcode Hrun.
    by rewrite (convert_one_failure _ _ _ _ Hcode Hrun).
Qed.

(** C9: the destination is computed from the stem of the source alone,
    so two sources with the same stem, whatever their directories, are
    converted to one and the same destination file; the argument vector
    starts with the overwrite flag [-y] and ends with that destination,
    and the process is started without the destination being looked
    at. *)
Theorem convert_one_destination_by_stem src1 src2 :
  stem src1 = stem src2 ->
  dst_of src1 = dst_of src2 /\
  last (ffmpeg_cmd src1) = last (ffmpeg_cmd src2) /\
  ffmpeg_cmd src1 !! 1 = Some "-y" /\
  ffmpeg_cmd src2 !! 1 = Some "-y" /\
  (forall w code fs,
     run_process (ffmpeg_cmd src2) (files w) = Exited code fs ->
     exists tr,
       log (convert_one src2 w).2 = log w ++ EvRun (ffmpeg_cmd src2) :: tr).
Proof.
  intros Hstem.
  assert (Hdst : dst_of src1 = dst_of src2).
  { unfold dst_of. by rewrite Hstem. }
  split; [done|]. split; [by rewrite !ffmpeg_cmd_output, Hdst|].
  split; [done|]. split; [done|].
  intros w code fs Hrun.
  unfold convert_one, subprocess_run_check, bind. rewrite Hrun.
  case_bool_decide; cbn; [|by exists []].
  unfold unlink, bind, stat, set_files, emit, ret, raise. cbn.
  destruct (fs !! src2) as [[| |]|]; cbn;
    first [by exists [] | eexists; by rewrite <- app_assoc].
Qed.
End ConvertFacts.

(** ** The statements on the test doubles *)

Section Witnesses.
Import Fixture Download Convert.

Lemma run_pair {A B} (x : A * B) (a : A) : x.1 = a -> x = (a, x.2).
Proof. intros <-. by destruct x. Defined.

Lemma run_pair' {A B} (x : A * B) : x = (x.1, x.2).
Proof. by destruct x. Defined.

Ltac run := vm_compute; reflexivity.

Lemma fetch_and_verify_bad_archive_witness :
  exists w',
    fetch_and_verify tars tracks "c.tar" world0 =
      (Raise (RuntimeError "Bad checksum for c.tar"), w') /\
    (forall rest,
       for_each_tar tars tracks ("c.tar" :: rest) world0 =
         (Raise (RuntimeError "Bad checksum for c.tar"), w')) /\
    files w' !! (OUTPUT_DIR </> "c.tar") = None /\
    log w' = log world0 ++
      [EvHttpGet (tar_url "c.tar");
       EvSha256 (OUTPUT_DIR </> "c.tar") (sha256_hex (b "CORRUPT"));
       EvUnlink (OUTPUT_DIR </> "c.tar")].
Proof.
  apply (fetch_and_verify_bad_archive tars tracks "c.tar" world0
           (b "CORRUPT") "c0ffee").
  - run.
  - vm_compute. discriminate.
  - intros n Hn. vm_compute in Hn. by injection Hn as <-.
  - run.
  - run.
  - vm_compute. discriminate.
Defined.

Lemma fetch_and_verify_existing_noop_witness :
  fetch_and_verify tars tracks "a.tar" world_stale = (Ok tt, world_stale) /\
  forall rest,
    for_each_tar tars tracks ("a.tar" :: rest) world_stale =
      for_each_tar tars tracks rest world_stale.
Proof.
  apply (fetch_and_verify_existing_noop tars tracks "a.tar" world_stale).
  exists (File (b "trunc")). run.
Defined.

Lemma good_tar_passes fs :
  fs !! (OUTPUT_DIR </> "00/1.mp3") = Some (File (b "one")) ->
  fs !! (OUTPUT_DIR </> "00/2.mp3") = Some (File (b "two")) ->
  Forall (member_passes tracks fs) good_tar.
Proof.
  intros H1 H2. repeat apply Forall_cons_2; [| | | |apply Forall_nil_2].
  - intros Hc. vm_compute in Hc. discriminate.
  - intros _. exists (b "one"). split; [exact H1|run].
  - intros _. exists (b "two"). split; [exact H2|run].
  - intros Hc. vm_compute in Hc. discriminate.
Defined.

Lemma fetch_and_verify_removes_archive_witness :
  (files (fetch_and_verify tars tracks "a.tar" world0).2
     !! (OUTPUT_DIR </> "a.tar") = None /\
   last (log (fetch_and_verify tars tracks "a.tar" world0).2)
     = Some (EvUnlink (OUTPUT_DIR </> "a.tar"))) /\
  (exists w',
     fetch_and_verify tars tracks "a.tar" world0 = (Ok tt, w') /\
     files w' =
       delete (OUTPUT_DIR </> "a.tar")
         (extract_fs good_tar
            (downloaded (OUTPUT_DIR </> "a.tar") (b "GOODTAR")
               (files world0)))).
Proof.
  destruct (fetch_and_verify_removes_archive tars tracks "a.tar" world0)
    as [Hgone Hok]; [run|].
  split.
  - apply Hgone. apply run_pair. run.
  - apply (Hok (b "GOODTAR") good_tar).
    + vm_compute. discriminate.
    + intros n Hn. vm_compute in Hn. by injection Hn as <-.
    + run.
    + run.
    + run.
    + apply good_tar_passes; run.
    + vm_compute. discriminate.
Defined.

(** In the run over [a.tar], the extraction of member [00] comes after
    the hash of the archive, which is the manifest's digest. *)
Lemma extraction_only_after_archive_check_witness :
  exists tc tar_name digest,
    load_tar_checksums world0 = (Ok tc, world0) /\
    tar_name ∈ ["a.tar"] /\
    tar_a = OUTPUT_DIR </> tar_name /\
    dict_get tar_name tc = Some digest /\
    EvSha256 tar_a digest ∈
      [EvHttpGet (tar_url "a.tar"); EvSha256 tar_a "GOODTAR"].
Proof.
  destruct (extraction_only_after_archive_check ["a.tar"] world0
              (_download_tars ["a.tar"] world0).1
              (_download_tars ["a.tar"] world0).2 (run_pair' _))
    as (delta & Hlog & Hguard).
  vm_compute in Hlog. subst delta.
  apply (Hguard [EvHttpGet (tar_url "a.tar"); EvSha256 tar_a "GOODTAR"]
           tar_a "00"
           [EvExtract tar_a "00/1.mp3"; EvExtract tar_a "00/2.mp3";
            EvExtract tar_a "00/README";
            EvSha256 (OUTPUT_DIR </> "00/1.mp3") "one";
            EvSha256 (OUTPUT_DIR </> "00/2.mp3") "two";
            EvUnlink tar_a]).
  run.
Defined.

(** The good archive verifies; the bad one stops at its second track. *)
Lemma unpack_and_verify_members_witness :
  ((unpack_and_verify tar_a tracks world_a).1 = Ok tt /\
   log (unpack_and_verify tar_a tracks world_a).2 =
     [EvExtract tar_a "00"; EvExtract tar_a "00/1.mp3";
      EvExtract tar_a "00/2.mp3"; EvExtract tar_a "00/README";
      EvSha256 (OUTPUT_DIR </> "00/1.mp3") "one";
      EvSha256 (OUTPUT_DIR </> "00/2.mp3") "two"]) /\
  ((unpack_and_verify tar_b tracks world_b).1 =
     Raise (RuntimeError
              "Checksum mismatch: /repo/scripts/../data/audio/01/4.mp3") /\
   log (unpack_and_verify tar_b tracks world_b).2 =
     [EvExtract tar_b "01/3.mp3"; EvExtract tar_b "01/4.mp3";
      EvExtract tar_b "01/5.mp3";
      EvSha256 (OUTPUT_DIR </> "01/3.mp3") "three";
      EvSha256 (OUTPUT_DIR </> "01/4.mp3") "tampered"] /\
   files (unpack_and_verify tar_b tracks world_b).2
     !! (OUTPUT_DIR </> "01/5.mp3") = Some (File (b "five"))).
Proof.
  split.
  - rewrite (proj1 (unpack_and_verify_members tar_a tracks world_a
                      (b "GOODTAR") good_tar ltac:(run) ltac:(run))).
    + split; run.
    + apply good_tar_passes; run.
  - rewrite (proj2 (unpack_and_verify_members tar_b tracks world_b
                      (b "BADTAR") bad_tar ltac:(run) ltac:(run))
               [member "01/3.mp3" "three"] (member "01/4.mp3" "tampered")
               [member "01/5.mp3" "five"] (b "tampered") "four").
    + repeat split; run.
    + reflexivity.
    + apply Forall_cons_2; [|apply Forall_nil_2].
      intros _. exists (b "three"). split; run.
    + reflexivity.
    + reflexivity.
    + run.
    + vm_compute. discriminate.
Defined.

(** The bad archive raises at [01/4.mp3]; [01/5.mp3], listed after it,
    is on disk all the same. *)
Lemma unpack_and_verify_extracts_all_witness :
  (unpack_and_verify tar_b tracks world_b).1 =
    Raise (RuntimeError
             "Checksum mismatch: /repo/scripts/../data/audio/01/4.mp3") /\
  is_Some (files (unpack_and_verify tar_b tracks world_b).2
             !! (OUTPUT_DIR </> ti_name (member "01/5.mp3" "five"))).
Proof.
  split; [run|].
  apply (unpack_and_verify_extracts_all tar_b tracks world_b (b "BADTAR")
           bad_tar _ _ ltac:(run) ltac:(run) (run_pair' _)).
  do 2 apply list_elem_of_further. apply list_elem_of_here.
Defined.

Lemma select_sample_size_witness :
  exists sample,
    select_sample world0 = (Ok sample, world0) /\
    Z.of_nat (length sample) = Z.max 1 (Z.of_nat (length tars) / 20).
Proof.
  apply (select_sample_size world0 tars_txt tars).
  - run.
  - run.
  - cbn. lia.
  - intros g n. change ((g * 7 + 3) `mod` S n < S n).
    apply Nat.mod_upper_bound. lia.
Defined.

Lemma select_sample_deterministic_witness :
  (select_sample world0).1 = (select_sample world_other).1 /\
  (select_sample world0).2 = world0 /\
  (select_sample world_other).2 = world_other.
Proof.
  apply (select_sample_deterministic world0 world_other). run.
Defined.

(** [track.mp3] becomes [track.wav]; a sound file is converted and then
    removed, a broken one makes the process fail and stays. *)
Lemma convert_one_outcomes_witness :
  dst_of track_mp3 = "data/audio/wav/track.wav" /\
  (convert_one track_mp3 world_track).1 = Ok "track.mp3" /\
  files (convert_one track_mp3 world_track).2 !! track_mp3 = None /\
  files (convert_one track_mp3 world_track).2 !! "data/audio/wav/track.wav"
    = Some (File (b "ID3 sound")) /\
  (convert_one track_mp3 world_broken).1 =
    Raise (CalledProcessError 1 (ffmpeg_cmd track_mp3)) /\
  files (convert_one track_mp3 world_broken).2 !! track_mp3
    = Some (File []).
Proof.
  destruct (convert_one_outcomes track_mp3 "track" world_track)
    as (Hdst & _ & Hok & _); [run|discriminate|].
  destruct (convert_one_outcomes track_mp3 "track" world_broken)
    as (_ & _ & _ & Hfail); [run|discriminate|].
  split; [rewrite Hdst; run|].
  rewrite (Hok (<["data/audio/wav/track.wav" := File (b "ID3 sound")]>
                  (files world_track)) (File (b "ID3 sound")));
    [|run|run|discriminate].
  destruct (Hfail 1%Z (files world_broken)) as [-> _]; [discriminate|run|].
  repeat split; run.
Defined.

(** [a/x.mp3] and [b/x.mp3] share the destination [x.wav]; converting
    one after the other leaves the second one's sound there. *)
Lemma convert_one_destination_by_stem_witness :
  dst_of a_x_mp3 = dst_of b_x_mp3 /\
  dst_of b_x_mp3 = "data/audio/wav/x.wav" /\
  ffmpeg_cmd b_x_mp3 !! 1 = Some "-y" /\
  files (convert_one b_x_mp3 (convert_one a_x_mp3 world_ab).2).2
    !! "data/audio/wav/x.wav" = Some (File (b "second")).
Proof.
  destruct (convert_one_destination_by_stem a_x_mp3 b_x_mp3)
    as (Hdst & _ & _ & Hy & _); [run|].
  split; [exact Hdst|]. split; [run|]. split; [exact Hy|]. run.
Defined.
End Witnesses.

(** * Further properties of the two scripts *)

(** ** Manifests as dictionaries *)

Lemma dict_get_set_eq k v d : dict_get k (dict_set k v d) = Some v.
Proof.
  induction d as [|[k' v'] d IH]; cbn.
  - by rewrite decide_True.
  - destruct (decide (k = k')) as [->|Hne]; cbn.
    + by rewrite decide_True.
    + by rewrite decide_False.
Qed.

Lemma dict_get_set_ne k k' v d :
  k <> k' -> dict_get k' (dict_set k v d) = dict_get k' d.
Proof.
  intros Hne. induction d as [|[k0 v0] d IH]; cbn.
  - by rewrite decide_False.
  - destruct (decide (k = k0)) as [->|Hk]; cbn.
    + by rewrite !decide_False.
    + destruct (decide (k' = k0)); [done|exact IH].
Qed.

Lemma elem_of_dict_keys k d : k ∈ dict_keys d <-> is_Some (dict_get k d).
Proof.
  unfold dict_keys. induction d as [|[k' v'] d IH]; cbn.
  - split; [by intros ?%elem_of_nil|by intros [? ?]].
  - rewrite elem_of_cons, IH.
    destruct (decide (k = k')) as [->|Hne].
    + split; eauto.
    + split; [by intros [?|?]|by right].
Qed.

Lemma dict_keys_set k v d :
  dict_keys (dict_set k v d) =
    if decide (is_Some (dict_get k d)) then dict_keys d else dict_keys d ++ [k].
Proof.
  unfold dict_keys. induction d as [|[k' v'] d IH]; cbn.
  - rewrite decide_False; [done|]. by intros [? ?].
  - destruct (decide (k = k')) as [->|Hne]; cbn.
    + by rewrite decide_True by eauto.
    + rewrite IH. by destruct (decide (is_Some (dict_get k d))).
Qed.

Lemma NoDup_dict_set k v d :
  NoDup (dict_keys d) -> NoDup (dict_keys (dict_set k v d)).
Proof.
  intros Hnd. rewrite dict_keys_set.
  destruct (decide (is_Some (dict_get k d))) as [|Hno]; [done|].
  apply NoDup_app. split; [done|]. split; [|apply NoDup_singleton].
  intros x Hx ->%list_elem_of_singleton. by apply Hno, elem_of_dict_keys.
Qed.

Lemma dict_of_rows_NoDup rows acc d :
  dict_of_rows rows acc = Some d -> NoDup (dict_keys acc) ->
  NoDup (dict_keys d).
Proof.
  revert acc. induction rows as [|row rows IH]; intros acc Hd Hnd.
  - cbn in Hd. by simplify_eq.
  - destruct row as [|sha [|name [|? ?]]]; cbn in Hd; try done.
    eapply IH; [done|]. by apply NoDup_dict_set.
Qed.

Lemma dict_of_rows_get rows acc d name :
  dict_of_rows rows acc = Some d ->
  dict_get name d =
    match rows_lookup name rows with
    | Some sha => Some sha
    | None => dict_get name acc
    end.
Proof.
  unfold rows_lookup. revert acc.
  induction rows as [|row rows IH]; intros acc Hd.
  - cbn in Hd. by simplify_eq.
  - destruct row as [|sha [|n [|? ?]]]; cbn in Hd; try done.
    rewrite (IH _ Hd). cbn [omap list_omap row_digest].
    destruct (decide (n = name)) as [->|Hne].
    + cbn. rewrite last_cons.
      destruct (last (omap (row_digest name) rows)); [done|].
      apply dict_get_set_eq.
    + cbn. destruct (last (omap (row_digest name) rows)); [done|].
      by apply dict_get_set_ne.
Qed.

Lemma dict_of_rows_None rows acc :
  dict_of_rows rows acc = None <-> Exists (fun row => length row <> 2) rows.
Proof.
  revert acc. induction rows as [|row rows IH]; intros acc.
  - cbn. split; [done|]. by intros ?%Exists_nil.
  - rewrite Exists_cons.
    destruct row as [|sha [|name [|? ?]]]; cbn;
      try (split; [intros _; left; cbn; lia|done]).
    rewrite IH. split; [by right|]. intros [Hbad|?]; [|done]. by cbn in Hbad.
Qed.


(** ** Loading the manifests and selecting names *)

Lemma transpose_involutive i j k : transpose i j (transpose i j k) = k.
Proof. unfold transpose. repeat case_decide; congruence. Qed.

Section DownloadMore.
Context {path : Type} `{Countable path} `{!PathLib path} `{!Runtime path}.
Import Download.

Implicit Types (w : world path) (p tar_path : path) (fs : gmap path node).
Implicit Types (members : list TarInfo) (tc trk : pydict).
Implicit Types (tr : list (event path)).

Lemma load_checksums_missing file w :
  files w !! file = None ->
  load_checksums file w = (Raise (FileNotFoundError (path_str file)), w).
Proof.
  intros Hfile. unfold load_checksums, read_bytes, bind, stat.
  by rewrite Hfile.
Qed.

Lemma load_checksums_Ok_inv file w d w' :
  load_checksums file w = (Ok d, w') ->
  w' = w /\
  exists text,
    files w !! file = Some (File text) /\
    dict_of_rows (csv_reader text) [] = Some d.
Proof.
  intros Hrun. pose proof (load_checksums_inv _ _ _ _ Hrun) as ->.
  split; [done|]. unfold load_checksums in Hrun.
  apply bind_inv in Hrun as [(text & w1 & Hread & Hrun)|(e & _ & ?)];
    [|done].
  apply read_bytes_inv in Hread as [-> Hfile].
  exists text. split; [by apply Hfile|].
  destruct (dict_of_rows _ _); unfold ret, raise in Hrun; by simplify_eq.
Qed.

(** X1: a loaded manifest maps each name to the digest on the last row
    that names it, and to nothing when no row does; loading reads the
    file and changes nothing. *)
Theorem load_checksums_last_row_wins file w d w' :
  load_checksums file w = (Ok d, w') ->
  w' = w /\
  exists text,
    files w !! file = Some (File text) /\
    forall name, dict_get name d = rows_lookup name (csv_reader text).
Proof.
  intros Hrun.
  apply load_checksums_Ok_inv in Hrun as [-> (text & Hfile & Hrows)].
  split; [done|]. exists text. split; [done|]. intros name.
  rewrite (dict_of_rows_get _ _ _ name Hrows).
  by destruct (rows_lookup name (csv_reader text)).
Qed.

(** X2: loading a manifest fails with [FileNotFoundError] when the file is
    absent, and with [ValueError] exactly when some row does not have two
    fields; when every row has two fields it succeeds.  In each case the
    world is left as it was. *)
Theorem load_checksums_failures file w :
  (files w !! file = None ->
   load_checksums file w = (Raise (FileNotFoundError (path_str file)), w)) /\
  (forall text,
     files w !! file = Some (File text) ->
     (Exists (fun row => length row <> 2) (csv_reader text) <->
      load_checksums file w = (Raise ValueError, w)) /\
     (Forall (fun row => length row = 2) (csv_reader text) ->
      exists d, load_checksums file w = (Ok d, w))).
Proof.
  split; [apply load_checksums_missing|].
  intros text Hfile.
  assert (Hrun : load_checksums file w =
            match dict_of_rows (csv_reader text) [] with
            | Some d => (Ok d, w)
            | None => (Raise ValueError, w)
            end).
  { unfold load_checksums.
    rewrite (bind_ok _ _ _ _ _ (read_bytes_file _ _ _ Hfile)).
    by destruct (dict_of_rows _ _). }
  rewrite Hrun. split.
  - rewrite <- (dict_of_rows_None _ []).
    destruct (dict_of_rows _ _); split; intros ?; by simplify_eq.
  - intros Hall.
    destruct (dict_of_rows (csv_reader text) []) as [d|] eqn:Hd; [by eexists|].
    apply dict_of_rows_None, Exists_exists in Hd as (row & Hin & Hlen).
    rewrite Forall_forall in Hall. by destruct (Hlen (Hall _ Hin)).
Qed.

(** X3: [select_full] lists every name of the archive manifest once, and
    nothing else: a name is in the list exactly when the loaded manifest
    has a digest for it. *)
Theorem select_full_names w names w' :
  select_full w = (Ok names, w') ->
  w' = w /\
  NoDup names /\
  exists tc,
    load_tar_checksums w = (Ok tc, w) /\
    forall name, name ∈ names <-> is_Some (dict_get name tc).
Proof.
  unfold select_full. intros Hrun.
  apply bind_inv in Hrun as [(tc & w1 & Hload & Hrun)|(e & _ & ?)]; [|done].
  unfold ret in Hrun. simplify_eq.
  pose proof Hload as Hload'.
  apply load_checksums_Ok_inv in Hload' as [-> (text & _ & Hrows)].
  split; [done|]. split.
  - eapply dict_of_rows_NoDup; [done|]. apply NoDup_nil_2.
  - exists tc. split; [done|]. intros name. apply elem_of_dict_keys.
Qed.

Lemma swap_lookup i j (x x' : list string) :
  swap i j x = Some x' -> forall k, x' !! k = x !! transpose i j k.
Proof.
  unfold swap. intros Hswap k.
  destruct (x !! j) as [xj|] eqn:Hj; [|done].
  destruct (x !! i) as [xi|] eqn:Hi; [|done]. simplify_eq.
  pose proof (lookup_lt_Some _ _ _ Hj). pose proof (lookup_lt_Some _ _ _ Hi).
  unfold transpose. destruct (decide (k = j)) as [->|Hkj].
  - rewrite list_lookup_insert_eq by (by rewrite length_insert). done.
  - rewrite list_lookup_insert_ne by done.
    destruct (decide (k = i)) as [->|Hki].
    + by rewrite list_lookup_insert_eq.
    + by rewrite list_lookup_insert_ne.
Qed.

Lemma swap_elem_of i j (x x' : list string) y :
  swap i j x = Some x' -> y ∈ x' <-> y ∈ x.
Proof.
  intros Hswap. rewrite !list_elem_of_lookup. split; intros [k Hk].
  - exists (transpose i j k). by rewrite <- (swap_lookup _ _ _ _ Hswap).
  - exists (transpose i j k).
    by rewrite (swap_lookup _ _ _ _ Hswap), transpose_involutive.
Qed.

Lemma swap_NoDup i j (x x' : list string) :
  swap i j x = Some x' -> NoDup x -> NoDup x'.
Proof.
  intros Hswap Hnd. apply NoDup_alt. intros a c y Ha Hc.
  rewrite (swap_lookup _ _ _ _ Hswap) in Ha, Hc.
  rewrite NoDup_alt in Hnd. pose proof (Hnd _ _ _ Ha Hc) as Heq.
  rewrite <- (transpose_involutive i j a), Heq.
  apply transpose_involutive.
Qed.

Lemma swap_length i j (x x' : list string) :
  swap i j x = Some x' -> length x' = length x.
Proof.
  unfold swap. intros Hswap.
  destruct (x !! j); [|done]. destruct (x !! i); [|done]. simplify_eq.
  by rewrite !length_insert.
Qed.

(** The shuffle rearranges: same names, same length, no name doubled. *)
Lemma shuffle_loop_rearranges i g (x x' : list string) :
  shuffle_loop i g x = Some x' ->
  (forall y, y ∈ x' <-> y ∈ x) /\ (NoDup x -> NoDup x') /\
  length x' = length x.
Proof.
  revert g x. induction i as [|i IH]; intros g x Hrun.
  - cbn in Hrun. by simplify_eq.
  - cbn [shuffle_loop] in Hrun.
    destruct (randbelow g (S (S i))) as [j g'].
    destruct (swap (S i) j x) as [x1|] eqn:Hswap; [|done].
    destruct (IH _ _ Hrun) as (Hin & Hnd & Hlen).
    split; [|split].
    + intros y. by rewrite Hin, (swap_elem_of _ _ _ _ _ Hswap).
    + intros ?. eapply Hnd, swap_NoDup; done.
    + by rewrite Hlen, (swap_length _ _ _ _ Hswap).
Qed.

(** X4: the sample is a selection from the manifest: no name occurs
    twice, every name has a digest in the archive manifest (so the lookup
    in the loop cannot miss), and there are [min(k, N)] of them. *)
Theorem select_sample_from_manifest w sample w' :
  select_sample w = (Ok sample, w') ->
  w' = w /\
  NoDup sample /\
  exists tc,
    load_tar_checksums w = (Ok tc, w) /\
    (forall name, name ∈ sample -> is_Some (dict_get name tc)) /\
    length sample = min (sample_size (length tc)) (length tc).
Proof.
  unfold select_sample. intros Hrun.
  apply bind_inv in Hrun as [(tc & w1 & Hload & Hrun)|(e & _ & ?)]; [|done].
  pose proof Hload as Hload'.
  apply load_checksums_Ok_inv in Hload' as [-> (text & _ & Hrows)].
  unfold shuffle in Hrun.
  destruct (shuffle_loop _ _ _) as [names|] eqn:Hsh;
    unfold bind, ret, raise in Hrun; [|done].
  remember (sample_size (length names)) as k eqn:Hk.
  injection Hrun as <- <-.
  destruct (shuffle_loop_rearranges _ _ _ _ Hsh) as (Hin & Hnd & Hlen).
  unfold dict_keys in Hlen. rewrite length_fmap in Hlen.
  split; [done|]. split.
  - eapply sublist_NoDup; [|apply sublist_take].
    apply Hnd. eapply dict_of_rows_NoDup; [done|]. apply NoDup_nil_2.
  - exists tc. split; [done|]. split.
    + intros name Hname. apply elem_of_dict_keys, Hin.
      by apply (subseteq_take k).
    + rewrite length_take, Hk. by rewrite Hlen.
Qed.

(** X5: with an empty archive manifest the sample is empty although
    [k] is 1, and [download_sample] does nothing. *)
Theorem download_sample_empty_manifest w text trk :
  files w !! SHA256_TARS_FILE = Some (File text) ->
  csv_reader text = [] ->
  load_track_checksums w = (Ok trk, w) ->
  sample_size 0 = 1 /\
  select_sample w = (Ok [], w) /\
  download_sample w = (Ok tt, w).
Proof.
  intros Hfile Hrows Htrk.
  assert (Hload : load_tar_checksums w = (Ok [], w)).
  { apply (load_checksums_ok _ _ text); [done|]. by rewrite Hrows. }
  assert (Hsel : select_sample w = (Ok [], w)).
  { unfold select_sample. rewrite (bind_ok _ _ _ _ _ Hload).
    unfold shuffle, bind, ret. cbn [dict_keys fmap list_fmap length].
    cbn [Nat.sub shuffle_loop]. by rewrite take_nil. }
  split; [vm_compute; reflexivity|]. split; [done|].
  unfold download_sample. rewrite (bind_ok _ _ _ _ _ Hsel).
  unfold _download_tars.
  rewrite (bind_ok _ _ _ _ _ Hload). by rewrite (bind_ok _ _ _ _ _ Htrk).
Qed.

(** X6: [_download_tars] loads both manifests before it looks at any
    name: when the archive manifest, or else the track manifest, is absent
    it raises [FileNotFoundError] for that file and the world is as it
    was, whatever the names. *)
Theorem download_tars_missing_manifest tar_names w :
  (files w !! SHA256_TARS_FILE = None ->
   _download_tars tar_names w =
     (Raise (FileNotFoundError (path_str SHA256_TARS_FILE)), w)) /\
  (forall tc,
     load_tar_checksums w = (Ok tc, w) ->
     files w !! SHA256_TRACKS_FILE = None ->
     _download_tars tar_names w =
       (Raise (FileNotFoundError (path_str SHA256_TRACKS_FILE)), w)).
Proof.
  unfold _download_tars. split.
  - intros Hno.
    by rewrite (bind_raise _ _ _ _ _ (load_checksums_missing _ _ Hno)).
  - intros tc Htc Hno. rewrite (bind_ok _ _ _ _ _ Htc).
    by rewrite (bind_raise _ _ _ _ _ (load_checksums_missing _ _ Hno)).
Qed.

Lemma fetch_and_verify_skip tc trk name w :
  is_Some (files w !! (OUTPUT_DIR </> name)) ->
  fetch_and_verify tc trk name w = (Ok tt, w).
Proof.
  intros Hex. unfold fetch_and_verify.
  rewrite (bind_ok _ _ _ _ _ (path_exists_run _ _)).
  by rewrite bool_decide_eq_true_2.
Qed.

(** X7: when something exists at the local path of every name,
    [_download_tars] only loads the manifests: it returns and the world
    is as it was. *)
Theorem download_tars_all_present tar_names w tc trk :
  load_tar_checksums w = (Ok tc, w) ->
  load_track_checksums w = (Ok trk, w) ->
  (forall name, name ∈ tar_names ->
     is_Some (files w !! (OUTPUT_DIR </> name))) ->
  _download_tars tar_names w = (Ok tt, w).
Proof.
  intros Htc Htrk Hall. unfold _download_tars.
  rewrite (bind_ok _ _ _ _ _ Htc), (bind_ok _ _ _ _ _ Htrk).
  induction tar_names as [|name rest IH]; [done|].
  cbn [for_each_tar].
  assert (Hname : is_Some (files w !! (OUTPUT_DIR </> name)))
    by (apply Hall; by left).
  rewrite (bind_ok _ _ _ _ _ (fetch_and_verify_skip tc trk _ _ Hname)).
  apply IH. intros n Hn. apply Hall. by right.
Qed.
End DownloadMore.

(** ** What one archive leaves behind *)

Section DownloadOutcomes.
Context {path : Type} `{Countable path} `{!PathLib path} `{!Runtime path}.
Import Download.

Implicit Types (w : world path) (p tar_path : path) (fs : gmap path node).
Implicit Types (members : list TarInfo) (tc trk : pydict).
Implicit Types (tr : list (event path)).


Lemma mkdir_p_raise p w e w' :
  mkdir_p p w = (Raise e, w') -> w' = w /\ e = FileExistsError (path_str p).
Proof.
  unfold mkdir_p, bind, stat, set_files, ret, raise.
  destruct (files w !! p) as [[| |]|]; intros ?; by simplify_eq.
Qed.


Lemma download_file_Ok_log url dest w w' :
  download_file url dest w = (Ok tt, w') ->
  log w' = log w ++ [EvHttpGet url].
Proof.
  unfold download_file. intros Hrun.
  apply bind_inv in Hrun as [([] & w1 & Hmk & Hrun)|(e & _ & ?)]; [|done].
  apply keeps_log_mkdir_p in Hmk.
  apply bind_inv in Hrun as [([] & w2 & Hemit & Hrun)|(e & _ & ?)]; [|done].
  unfold emit in Hemit.
  assert (Hlog : log w2 = log w ++ [EvHttpGet url])
    by (simplify_eq; cbn; by rewrite Hmk).
  clear Hemit. destruct (remote url) as [body|]; [|done].
  apply bind_inv in Hrun as [(fs0 & w3 & Hfs & Hrun)|(e & _ & ?)]; [|done].
  assert (w3 = w2) as -> by by simplify_eq.
  apply bind_inv in Hrun as [([] & w4 & Hset & Hrun)|(e & _ & ?)]; [|done].
  apply keeps_log_set_files in Hset.
  apply keeps_log_shutil_move in Hrun. congruence.
Qed.

Lemma rename_raise (src dst : path) w e w' :
  rename src dst w = (Raise e, w') -> ~ is_verify_error e.
Proof.
  unfold rename, bind, stat, set_files, raise.
  destruct (files w !! src); intros ? [[s ?]|[f ?]]; by simplify_eq.
Qed.

Lemma shutil_move_raise (src dst : path) w e w' :
  shutil_move src dst w = (Raise e, w') -> ~ is_verify_error e.
Proof.
  unfold shutil_move. intros Hrun.
  apply bind_inv in Hrun as [(n & w1 & _ & Hrun)|(e0 & ? & _)]; [|done].
  destruct n as [[| |]|]; try by eapply rename_raise.
  apply bind_inv in Hrun as [(ex & w2 & _ & Hrun)|(e0 & ? & _)]; [|done].
  destruct ex; [|by eapply rename_raise].
  unfold raise in Hrun. intros [[s ?]|[f ?]]; by simplify_eq.
Qed.

Lemma download_file_raise url dest w e w' :
  download_file url dest w = (Raise e, w') -> ~ is_verify_error e.
Proof.
  unfold download_file. intros Hrun.
  apply bind_inv in Hrun as [([] & w1 & _ & Hrun)|(e0 & Hmk & Heq)].
  2: { apply mkdir_p_raise in Hmk as [_ ->].
       intros [[s ?]|[f ?]]; by simplify_eq. }
  apply bind_inv in Hrun as [([] & w2 & _ & Hrun)|(e0 & ? & _)]; [|done].
  destruct (remote url) as [body|].
  - apply bind_inv in Hrun as [(fs0 & w3 & _ & Hrun)|(e0 & ? & _)]; [|done].
    apply bind_inv in Hrun as [([] & w4 & _ & Hrun)|(e0 & ? & _)]; [|done].
    by eapply shutil_move_raise.
  - unfold raise in Hrun. intros [[s ?]|[f ?]]; by simplify_eq.
Qed.

Lemma read_bytes_raise p w e w' :
  read_bytes p w = (Raise e, w') -> ~ is_verify_error e.
Proof.
  unfold read_bytes, bind, stat, ret, raise.
  destruct (files w !! p) as [[| |]|]; intros ? [[s ?]|[f ?]]; by simplify_eq.
Qed.

Lemma compute_sha256_raise p w e w' :
  compute_sha256 p w = (Raise e, w') -> ~ is_verify_error e.
Proof.
  unfold compute_sha256. intros Hrun.
  apply bind_inv in Hrun as [(data & w1 & _ & Hrun)|(e0 & Hread & Heq)].
  - unfold bind, emit, ret in Hrun. by simplify_eq.
  - simplify_eq. by eapply read_bytes_raise.
Qed.

Lemma unlink_raise p missing_ok w e w' :
  unlink p missing_ok w = (Raise e, w') -> ~ is_verify_error e.
Proof.
  unfold unlink, bind, stat, set_files, emit, ret, raise.
  destruct (files w !! p) as [[| |]|]; try destruct missing_ok;
    intros ? [[s ?]|[f ?]]; by simplify_eq.
Qed.

Lemma tar_open_inv tar_path w r w' :
  tar_open tar_path w = (r, w') ->
  w' = w /\
  forall members, r = Ok members ->
    exists body,
      files w !! tar_path = Some (File body) /\
      tar_members body = Some members.
Proof.
  unfold tar_open. intros Hrun.
  apply bind_inv in Hrun as [(body & w1 & Hread & Hrun)|(e & Hread & ->)].
  - apply read_bytes_inv in Hread as [-> Hfile].
    destruct (tar_members body) as [ms|] eqn:Htar;
      unfold ret, raise in Hrun; simplify_eq; split; try done.
    intros members ?. simplify_eq. exists body. split; [by apply Hfile|done].
  - apply read_bytes_inv in Hread as [-> _]. done.
Qed.


(** What [unpack_and_verify] does to the file store, for any outcome. *)
Lemma unpack_and_verify_files tar_path trk w r w' :
  unpack_and_verify tar_path trk w = (r, w') ->
  files w' = files w \/
  exists body members,
    files w !! tar_path = Some (File body) /\
    tar_members body = Some members /\
    files w' = extract_fs members (files w).
Proof.
  unfold unpack_and_verify. intros Hrun.
  apply bind_inv in Hrun as [(members & w1 & Hopen & Hrun)|(e & Hopen & _)].
  - apply tar_open_inv in Hopen as [-> Hbody].
    destruct (Hbody members eq_refl) as (body & Hfile & Htar).
    rewrite (bind_ok _ _ _ _ _ (extractall_run _ _ _)) in Hrun.
    apply verify_members_inv in Hrun as [Hfs _]. right. by eexists _, _.
  - apply tar_open_inv in Hopen as [-> _]. by left.
Qed.
(** X8: a name the archive manifest does not list is downloaded and
    hashed all the same; the lookup then raises [KeyError], and the
    downloaded file stays where it is, so that another run skips it. *)
Theorem fetch_and_verify_unlisted_name tc trk name w body :
  files w !! (OUTPUT_DIR </> name) = None ->
  path_parent (OUTPUT_DIR </> name) <> OUTPUT_DIR </> name ->
  (forall n, files w !! path_parent (OUTPUT_DIR </> name) = Some n -> n = Dir) ->
  remote (tar_url name) = Some body ->
  dict_get name tc = None ->
  exists w',
    fetch_and_verify tc trk name w = (Raise (KeyError name), w') /\
    files w' !! (OUTPUT_DIR </> name) = Some (File body) /\
    log w' = log w ++ [EvHttpGet (tar_url name);
                       EvSha256 (OUTPUT_DIR </> name) (sha256_hex body)] /\
    fetch_and_verify tc trk name w' = (Ok tt, w').
Proof.
  intros Habs Hpar Hdir Hurl Hget.
  eexists. split; [|split; [|split]].
  - unfold fetch_and_verify.
    rewrite (bind_ok _ _ _ _ _ (path_exists_run _ _)), Habs.
    rewrite bool_decide_eq_false_2 by (by intros [? ?]).
    rewrite (bind_ok _ _ _ _ _
               (download_file_ok _ _ _ _ Hpar Hdir Habs Hurl)).
    erewrite bind_ok; [|by apply compute_sha256_file, downloaded_lookup].
    unfold dict_getitem. rewrite Hget. reflexivity.
  - apply downloaded_lookup.
  - cbn. by rewrite <- app_assoc.
  - apply fetch_and_verify_skip. cbn. rewrite downloaded_lookup. eauto.
Qed.

Lemma unpack_and_verify_keeps tar_path trk w r w' p :
  unpack_and_verify tar_path trk w = (r, w') ->
  is_Some (files w !! p) -> is_Some (files w' !! p).
Proof.
  intros Hrun Hp.
  apply unpack_and_verify_files in Hrun
    as [->|(body & members & _ & _ & ->)]; [done|].
  by apply extract_fs_keeps.
Qed.

(** X9: when an archive that was not there fails inside
    [unpack_and_verify] (a member digest that differs, or a file that is no
    archive), the archive file is still on disk afterwards; running
    [fetch_and_verify] for it again therefore does nothing: the failure is
    neither retried nor looked at again. *)
Theorem fetch_and_verify_failed_archive_stays tc trk name w e w' :
  files w !! (OUTPUT_DIR </> name) = None ->
  fetch_and_verify tc trk name w = (Raise e, w') ->
  is_verify_error e ->
  is_Some (files w' !! (OUTPUT_DIR </> name)) /\
  fetch_and_verify tc trk name w' = (Ok tt, w').
Proof.
  intros Habs Hrun He.
  assert (Hthere : is_Some (files w' !! (OUTPUT_DIR </> name)));
    [|split; [done|by apply fetch_and_verify_skip]].
  unfold fetch_and_verify in Hrun.
  rewrite (bind_ok _ _ _ _ _ (path_exists_run _ _)), Habs in Hrun.
  rewrite bool_decide_eq_false_2 in Hrun by (by intros [? ?]).
  apply bind_inv in Hrun as [([] & w0 & Hdl & Hrun)|(e0 & Hdl & Heq)].
  2: { simplify_eq. by destruct (download_file_raise _ _ _ _ _ Hdl). }
  apply bind_inv in Hrun as [(digest & w1 & Hsha & Hrun)|(e0 & Hsha & Heq)].
  2: { simplify_eq. by destruct (compute_sha256_raise _ _ _ _ Hsha). }
  apply compute_sha256_inv in Hsha
    as [Hfs [(e0 & ? & _)|(data & Hdata & _ & _)]]; [done|].
  unfold dict_getitem in Hrun.
  destruct (dict_get name tc) as [expected|].
  2: { unfold bind, raise in Hrun. destruct He as [[s ?]|[f ?]]; by simplify_eq. }
  unfold bind at 1 in Hrun. unfold ret at 1 in Hrun.
  destruct (bool_decide _).
  - apply bind_inv in Hrun as [([] & w2 & _ & Hrun)|(e0 & Hun & Heq)].
    + unfold raise in Hrun. destruct He as [[s ?]|[f ?]]; by simplify_eq.
    + simplify_eq. by destruct (unlink_raise _ _ _ _ _ Hun).
  - apply bind_inv in Hrun as [([] & w2 & _ & Hrun)|(e0 & Hup & Heq)].
    + by destruct (unlink_raise _ _ _ _ _ Hrun).
    + eapply unpack_and_verify_keeps; [done|]. rewrite Hfs, Hdata. eauto.
Qed.

Lemma fetch_and_verify_Ok_inv tc trk name w w' :
  files w !! (OUTPUT_DIR </> name) = None ->
  fetch_and_verify tc trk name w = (Ok tt, w') ->
  files w' !! (OUTPUT_DIR </> name) = None /\
  exists tr, log w' = log w ++ EvHttpGet (tar_url name) :: tr.
Proof.
  intros Habs Hrun. unfold fetch_and_verify in Hrun.
  rewrite (bind_ok _ _ _ _ _ (path_exists_run _ _)), Habs in Hrun.
  rewrite bool_decide_eq_false_2 in Hrun by (by intros [? ?]).
  apply bind_inv in Hrun as [([] & w0 & Hdl & Hrun)|(e & _ & ?)]; [|done].
  apply download_file_Ok_log in Hdl.
  apply bind_inv in Hrun as [(digest & w1 & Hsha & Hrun)|(e & _ & ?)];
    [|done].
  apply compute_sha256_inv in Hsha
    as [_ [(e & ? & _)|(data & _ & _ & Hlog1)]]; [done|].
  apply bind_inv in Hrun as [(expected & w2 & Hget & Hrun)|(e & _ & ?)];
    [|done].
  assert (w2 = w1) as ->.
  { unfold dict_getitem in Hget.
    destruct (dict_get name tc); unfold ret, raise in Hget; by simplify_eq. }
  destruct (bool_decide _).
  - apply bind_inv in Hrun as [([] & w3 & _ & Hrun)|(e & _ & ?)]; [|done].
    unfold raise in Hrun. by simplify_eq.
  - apply bind_inv in Hrun as [([] & w3 & Hup & Hrun)|(e & _ & ?)]; [|done].
    apply unpack_and_verify_inv in Hup as (delta & Hlog3 & _).
    apply unlink_inv in Hrun as (Hgone & _ & Hlog).
    split; [by apply Hgone|].
    eexists. rewrite Hlog, Hlog3, Hlog1, Hdl by done.
    rewrite <- !app_assoc. reflexivity.
Qed.

(** X10: success is not remembered.  The archive is deleted at the end of
    a successful iteration, so a second successful iteration for the same
    name requests the archive from the CDN again. *)
Theorem fetch_and_verify_success_fetches_again tc trk name w w1 w2 :
  files w !! (OUTPUT_DIR </> name) = None ->
  fetch_and_verify tc trk name w = (Ok tt, w1) ->
  fetch_and_verify tc trk name w1 = (Ok tt, w2) ->
  exists tr1 tr2,
    log w1 = log w ++ EvHttpGet (tar_url name) :: tr1 /\
    log w2 = log w1 ++ EvHttpGet (tar_url name) :: tr2.
Proof.
  intros Habs Hrun1 Hrun2.
  destruct (fetch_and_verify_Ok_inv _ _ _ _ _ Habs Hrun1) as (Hgone & tr1 & H1).
  destruct (fetch_and_verify_Ok_inv _ _ _ _ _ Hgone Hrun2) as (_ & tr2 & H2).
  by exists tr1, tr2.
Qed.




(** X14: [unpack_and_verify] extracts nothing when the archive cannot be
    opened: a missing file raises [FileNotFoundError], a file that is no
    archive raises [ReadError], and the world is as it was. *)
Theorem unpack_and_verify_unreadable tar_path trk w :
  (files w !! tar_path = None ->
   unpack_and_verify tar_path trk w
     = (Raise (FileNotFoundError (path_str tar_path)), w)) /\
  (forall body,
     files w !! tar_path = Some (File body) ->
     tar_members body = None ->
     unpack_and_verify tar_path trk w
       = (Raise (ReadError (path_str tar_path)), w)).
Proof.
  unfold unpack_and_verify. split.
  - intros Hno.
    assert (Hopen : tar_open tar_path w =
              (Raise (FileNotFoundError (path_str tar_path)), w)).
    { unfold tar_open, read_bytes, bind, stat. by rewrite Hno. }
    by rewrite (bind_raise _ _ _ _ _ Hopen).
  - intros body Hfile Htar.
    assert (Hopen : tar_open tar_path w =
              (Raise (ReadError (path_str tar_path)), w)).
    { unfold tar_open.
      rewrite (bind_ok _ _ _ _ _ (read_bytes_file _ _ _ Hfile)).
      by rewrite Htar. }
    by rewrite (bind_raise _ _ _ _ _ Hopen).
Qed.



End DownloadOutcomes.


(** ** More on the transcoder *)

Section ConvertMore.
Context {path : Type} `{Countable path} `{!PathLib path} `{!Processes path}.
Import Convert.

Implicit Types (w : world path) (src : path) (fs : gmap path node).

(** X18: beyond what the process did, [convert_one] touches the source
    and nothing else.  It returns the source's name exactly when the
    process exited with zero and left a source that can be unlinked, and
    then the source is gone; in every case each other path holds what the
    process left there. *)
Theorem convert_one_footprint src w code fs :
  run_process (ffmpeg_cmd src) (files w) = Exited code fs ->
  (forall p, p <> src -> files (convert_one src w).2 !! p = fs !! p) /\
  ((convert_one src w).1 = Ok (path_name src) <->
   code = 0%Z /\ exists n, fs !! src = Some n /\ n <> Dir) /\
  ((convert_one src w).1 = Ok (path_name src) ->
   files (convert_one src w).2 !! src = None).
Proof.
  intros Hrun. unfold convert_one, subprocess_run_check, bind.
  rewrite Hrun. case_bool_decide as Hcode; cbn.
  2: { split; [done|]. split; [|done]. split; [done|]. by intros [? _]. }
  unfold unlink, bind, stat, set_files, emit, ret, raise. cbn.
  destruct (fs !! src) as [[data| |]|] eqn:Hsrc; cbn.
  - split; [intros p Hp; by rewrite lookup_delete_ne|].
    split; [|intros _; apply lookup_delete_eq].
    split; [|done]. intros _. split; [done|]. by eexists.
  - split; [done|]. split; [|done]. split; [done|].
    intros [_ (n & ? & ?)]. by simplify_eq.
  - split; [intros p Hp; by rewrite lookup_delete_ne|].
    split; [|intros _; apply lookup_delete_eq].
    split; [|done]. intros _. split; [done|]. by eexists.
  - split; [done|]. split; [|done]. split; [done|].
    intros [_ (n & ? & ?)]. by simplify_eq.
Qed.

End ConvertMore.

(** ** The further statements on the test doubles *)

Section MoreWitnesses.
Import Fixture Download Convert.

Ltac eval_now := vm_compute; reflexivity.

Lemma load_checksums_last_row_wins_witness :
  world_lists = world_lists /\
  exists text,
    files world_lists !! "dup.txt" = Some (File text) /\
    forall name,
      dict_get name [("x.tar", "d3"); ("y.tar", "d2")]
        = rows_lookup name (csv_reader text).
Proof.
  apply (load_checksums_last_row_wins "dup.txt" world_lists
           [("x.tar", "d3"); ("y.tar", "d2")] world_lists).
  apply run_pair. eval_now.
Defined.

Lemma load_checksums_failures_witness :
  load_checksums "absent.txt" world_lists
    = (Raise (FileNotFoundError "absent.txt"), world_lists) /\
  load_checksums "broken.txt" world_lists = (Raise ValueError, world_lists) /\
  exists d, load_checksums "dup.txt" world_lists = (Ok d, world_lists).
Proof.
  split; [|split].
  - exact (proj1 (load_checksums_failures "absent.txt" world_lists)
             ltac:(eval_now)).
  - apply (proj1 (proj2 (load_checksums_failures "broken.txt" world_lists)
                    broken_txt ltac:(eval_now))).
    assert (Hrows : csv_reader broken_txt = [["d1"; "x.tar"]; ["lonely"]])
      by eval_now.
    rewrite Hrows. apply Exists_cons_tl, Exists_cons_hd. cbn. lia.
  - apply (proj2 (proj2 (load_checksums_failures "dup.txt" world_lists)
                    dup_txt ltac:(eval_now))).
    assert (Hrows : csv_reader dup_txt
              = [["d1"; "x.tar"]; ["d2"; "y.tar"]; ["d3"; "x.tar"]])
      by eval_now.
    rewrite Hrows. repeat constructor.
Defined.

Lemma select_full_names_witness :
  world0 = world0 /\
  NoDup ["a.tar"; "b.tar"; "c.tar"] /\
  exists tc,
    load_tar_checksums world0 = (Ok tc, world0) /\
    forall name,
      name ∈ ["a.tar"; "b.tar"; "c.tar"] <-> is_Some (dict_get name tc).
Proof.
  apply (select_full_names world0 ["a.tar"; "b.tar"; "c.tar"] world0).
  apply run_pair. eval_now.
Defined.

Lemma select_sample_from_manifest_witness :
  world0 = world0 /\
  NoDup ["b.tar"] /\
  exists tc,
    load_tar_checksums world0 = (Ok tc, world0) /\
    (forall name, name ∈ ["b.tar"] -> is_Some (dict_get name tc)) /\
    length ["b.tar"] = min (sample_size (length tc)) (length tc).
Proof.
  apply (select_sample_from_manifest world0 ["b.tar"] world0).
  apply run_pair. eval_now.
Defined.

Lemma download_sample_empty_manifest_witness :
  sample_size 0 = 1 /\
  select_sample world_empty = (Ok [], world_empty) /\
  download_sample world_empty = (Ok tt, world_empty).
Proof.
  apply (download_sample_empty_manifest world_empty [] tracks).
  - eval_now.
  - eval_now.
  - apply run_pair. eval_now.
Defined.

Lemma download_tars_missing_manifest_witness :
  _download_tars ["a.tar"] world_bare
    = (Raise (FileNotFoundError (path_str SHA256_TARS_FILE)), world_bare) /\
  _download_tars ["a.tar"] world_notracks
    = (Raise (FileNotFoundError (path_str SHA256_TRACKS_FILE)),
       world_notracks).
Proof.
  split.
  - apply (proj1 (download_tars_missing_manifest ["a.tar"] world_bare)).
    eval_now.
  - apply (proj2 (download_tars_missing_manifest ["a.tar"] world_notracks)
             tars).
    + apply run_pair. eval_now.
    + eval_now.
Defined.

Lemma download_tars_all_present_witness :
  _download_tars ["a.tar"; "b.tar"; "c.tar"] world_all_there
    = (Ok tt, world_all_there).
Proof.
  apply (download_tars_all_present ["a.tar"; "b.tar"; "c.tar"]
           world_all_there tars tracks).
  - apply run_pair. eval_now.
  - apply run_pair. eval_now.
  - intros name Hin.
    apply elem_of_cons in Hin as [->|Hin]; [eexists; eval_now|].
    apply elem_of_cons in Hin as [->|Hin]; [eexists; eval_now|].
    apply elem_of_cons in Hin as [->|Hin]; [eexists; eval_now|].
    by apply elem_of_nil in Hin.
Defined.
Lemma fetch_and_verify_unlisted_name_witness :
  exists w',
    fetch_and_verify [("b.tar", "BADTAR")] tracks "a.tar" world0
      = (Raise (KeyError "a.tar"), w') /\
    files w' !! (OUTPUT_DIR </> "a.tar") = Some (File (b "GOODTAR")) /\
    log w' = log world0 ++
      [EvHttpGet (tar_url "a.tar");
       EvSha256 (OUTPUT_DIR </> "a.tar") (sha256_hex (b "GOODTAR"))] /\
    fetch_and_verify [("b.tar", "BADTAR")] tracks "a.tar" w' = (Ok tt, w').
Proof.
  apply (fetch_and_verify_unlisted_name [("b.tar", "BADTAR")] tracks "a.tar"
           world0 (b "GOODTAR")).
  - eval_now.
  - vm_compute. discriminate.
  - intros n Hn. vm_compute in Hn. by injection Hn as <-.
  - eval_now.
  - eval_now.
Defined.

(** The archive with the tampered track, and an archive whose digest is
    right but which is no tar file. *)
Lemma fetch_and_verify_failed_archive_stays_witness :
  (is_Some (files (fetch_and_verify tars tracks "b.tar" world0).2
              !! (OUTPUT_DIR </> "b.tar")) /\
   fetch_and_verify tars tracks "b.tar"
     (fetch_and_verify tars tracks "b.tar" world0).2
   = (Ok tt, (fetch_and_verify tars tracks "b.tar" world0).2)) /\
  (is_Some (files (fetch_and_verify [("c.tar", "CORRUPT")] tracks "c.tar"
                     world0).2 !! (OUTPUT_DIR </> "c.tar")) /\
   fetch_and_verify [("c.tar", "CORRUPT")] tracks "c.tar"
     (fetch_and_verify [("c.tar", "CORRUPT")] tracks "c.tar" world0).2
   = (Ok tt, (fetch_and_verify [("c.tar", "CORRUPT")] tracks "c.tar"
                world0).2)).
Proof.
  split.
  - apply (fetch_and_verify_failed_archive_stays tars tracks "b.tar" world0
             (RuntimeError
                "Checksum mismatch: /repo/scripts/../data/audio/01/4.mp3")).
    + eval_now.
    + apply run_pair. eval_now.
    + left. by exists "/repo/scripts/../data/audio/01/4.mp3".
  - apply (fetch_and_verify_failed_archive_stays [("c.tar", "CORRUPT")]
             tracks "c.tar" world0
             (ReadError "/repo/scripts/../data/audio/c.tar")).
    + eval_now.
    + apply run_pair. eval_now.
    + right. by eexists.
Defined.

Lemma fetch_and_verify_success_fetches_again_witness :
  exists tr1 tr2,
    log (fetch_and_verify tars tracks "a.tar" world0).2
      = log world0 ++ EvHttpGet (tar_url "a.tar") :: tr1 /\
    log (fetch_and_verify tars tracks "a.tar"
           (fetch_and_verify tars tracks "a.tar" world0).2).2
      = log (fetch_and_verify tars tracks "a.tar" world0).2
          ++ EvHttpGet (tar_url "a.tar") :: tr2.
Proof.
  apply (fetch_and_verify_success_fetches_again tars tracks "a.tar" world0).
  - eval_now.
  - apply run_pair. eval_now.
  - apply run_pair. eval_now.
Defined.




Lemma unpack_and_verify_unreadable_witness :
  unpack_and_verify tar_b tracks world0
    = (Raise (FileNotFoundError (path_str tar_b)), world0) /\
  unpack_and_verify tar_a tracks world_stale
    = (Raise (ReadError (path_str tar_a)), world_stale).
Proof.
  split.
  - apply (proj1 (unpack_and_verify_unreadable tar_b tracks world0)).
    eval_now.
  - apply (proj2 (unpack_and_verify_unreadable tar_a tracks world_stale)
             (b "trunc")); eval_now.
Defined.



(** The sound file is converted and removed; the broken one stays. *)
Lemma convert_one_footprint_witness :
  ((forall p, p <> track_mp3 ->
      files (convert_one track_mp3 world_track).2 !! p
        = (<["data/audio/wav/track.wav" := File (b "ID3 sound")]>
             (files world_track)) !! p) /\
   ((convert_one track_mp3 world_track).1 = Ok (path_name track_mp3) <->
    0%Z = 0%Z /\
    exists n,
      (<["data/audio/wav/track.wav" := File (b "ID3 sound")]>
         (files world_track)) !! track_mp3 = Some n /\ n <> Dir) /\
   ((convert_one track_mp3 world_track).1 = Ok (path_name track_mp3) ->
    files (convert_one track_mp3 world_track).2 !! track_mp3 = None)) /\
  files (convert_one track_mp3 world_broken).2 !! track_mp3
    = Some (File []).
Proof.
  split.
  - apply (convert_one_footprint track_mp3 world_track 0%Z). eval_now.
  - eval_now.
Defined.

End MoreWitnesses.

